(** * Strava statistics plugin: the OAuth token lifecycle

    A shallow embedding of [src/services/strava-service.ts] (the token
    lifecycle manager), of the OAuth setup action and of the year and
    last-activity display actions, together with the properties of the token
    lifecycle that the specification states about them.

    Conventions of the embedding:
    - a settings object (global settings, action settings) is a finite map
      from property names to JavaScript values;
    - JavaScript numbers that occur here are Unix timestamps, durations,
      HTTP status codes and identifiers; they are integers and are modelled
      in [Z], which is exact for the double arithmetic of the code on whole
      numbers below 2^53 in absolute value;
    - a JavaScript string is the string of the bytes of its UTF-8 encoding;
    - an [async] method is a computation over the global settings store that
      may throw, and that records every interaction with the outside (store
      reads and writes, HTTP calls, host calls, log lines) in a trace;
    - the upstream API and the clock are an environment [Env]. *)

From Stdlib Require Import ZArith String Ascii List Bool Lia.
From stdpp Require Import base option gmap strings list pretty.

Local Open Scope string_scope.
Local Open Scope Z_scope.

(** ** JavaScript values *)

Inductive JsVal : Type :=
  | JUndef
  | JNull
  | JBool (b : bool)
  | JNum (z : Z)
  | JStr (s : string).

(** [Boolean(v)]: the truthiness that [if (v)], [!v], [a && b] and [a || b]
    test. *)
Definition truthy (v : JsVal) : bool :=
  match v with
  | JUndef | JNull => false
  | JBool b => b
  | JNum z => negb (z =? 0)
  | JStr s => negb (String.eqb s "")
  end.

(** [typeof v === 'string' ? v : d] and [typeof v === 'number' ? v : d]. *)
Definition stringOr {A : Type} (v : JsVal) (f : string -> A) (d : A) : A :=
  match v with JStr s => f s | _ => d end.

Definition numberOr (v : JsVal) (d : Z) : Z :=
  match v with JNum z => z | _ => d end.

(** Truthiness of a [string | null]. *)
Definition truthyStr (o : option string) : bool :=
  match o with
  | Some s => negb (String.eqb s "")
  | None => false
  end.

(** A settings object; [prop o k] is the property read [o.k]. *)
Abbreviation Settings := (gmap string JsVal).

Definition prop (o : Settings) (k : string) : JsVal := default JUndef (o !! k).

(** ** Strings *)

(** [hay.includes(needle)]. *)
Fixpoint includes (needle hay : string) : bool :=
  if String.prefix needle hay then true
  else match hay with
       | EmptyString => false
       | String _ rest => includes needle rest
       end.

(** The white space and the line terminators that [String.prototype.trim]
    removes, in UTF-8: U+0009 to U+000D, U+0020, U+00A0, U+1680, U+2000 to
    U+200A, U+2028, U+2029, U+202F, U+205F, U+3000 and U+FEFF. *)
Definition utf8 (bytes : list nat) : string :=
  List.fold_right (fun n rest => String (ascii_of_nat n) rest) EmptyString bytes.

Definition whiteSpace : list string :=
  List.map utf8
    [[9]; [10]; [11]; [12]; [13]; [32]; [194; 160]; [225; 154; 128];
     [226; 128; 128]; [226; 128; 129]; [226; 128; 130]; [226; 128; 131];
     [226; 128; 132]; [226; 128; 133]; [226; 128; 134]; [226; 128; 135];
     [226; 128; 136]; [226; 128; 137]; [226; 128; 138];
     [226; 128; 168]; [226; 128; 169]; [226; 128; 175]; [226; 129; 159];
     [227; 128; 128]; [239; 187; 191]]%nat.

(** The number of bytes of the pattern that the string starts with, 0 when
    it starts with none. *)
Fixpoint spaceAt (patterns : list string) (s : string) : nat :=
  match patterns with
  | [] => O
  | w :: rest => if String.prefix w s then String.length w else spaceAt rest s
  end.

(** Drops the patterns that open the string; [skip] counts the bytes of the
    current pattern that are still to drop. *)
Fixpoint skipSpace (patterns : list string) (skip : nat) (s : string) : string :=
  match s with
  | EmptyString => EmptyString
  | String c rest =>
      match skip with
      | S k => skipSpace patterns k rest
      | O =>
          match spaceAt patterns (String c rest) with
          | O => String c rest
          | S k => skipSpace patterns k rest
          end
      end
  end.

Fixpoint reverseOnto (s acc : string) : string :=
  match s with
  | EmptyString => acc
  | String c rest => reverseOnto rest (String c acc)
  end.

Definition reverse (s : string) : string := reverseOnto s EmptyString.

Definition trimStart (s : string) : string := skipSpace whiteSpace 0 s.

Definition trimEnd (s : string) : string :=
  reverse (skipSpace (List.map reverse whiteSpace) 0 (reverse s)).

Definition trim (s : string) : string := trimEnd (trimStart s).

(** ** Errors *)

(** A thrown value, with the fields the handlers probe: [error.name],
    [error.message], [error.status] and [error.response.status]. *)
Record JsError : Type := mkJsError {
  errName : string;
  errMessage : string;
  errStatus : option Z;
  errResponseStatus : option Z
}.

(** [new Error(msg)]. *)
Definition newError (msg : string) : JsError :=
  {| errName := "Error"; errMessage := msg;
     errStatus := None; errResponseStatus := None |}.

(** [Error.prototype.toString], which a template literal applies to an
    interpolated error. *)
Definition errToString (e : JsError) : string :=
  if String.eqb (errName e) "" then errMessage e
  else if String.eqb (errMessage e) "" then errName e
  else errName e +:+ ": " +:+ errMessage e.

(** ** The upstream API *)

Record Athlete : Type := mkAthlete {
  athleteId : Z;
  firstname : option string;
  lastname : option string
}.

Record TokenResponse : Type := mkTokenResponse {
  token_type : string;
  expires_at : Z;
  expires_in : Z;
  refresh_token : string;
  access_token : string;
  athlete : option Athlete
}.

(** The two bodies posted to [https://www.strava.com/oauth/token]. *)
Inductive TokenRequest : Type :=
  | AuthorizationCodeGrant (client_id client_secret code : string)
  | RefreshTokenGrant (client_id client_secret refresh_tok : string).

Inductive HttpResult (A : Type) : Type :=
  | HttpOk (data : A)
  | HttpErr (e : JsError).
Arguments HttpOk {A} data.
Arguments HttpErr {A} e.

(** The environment of one run: the clock ([Date.now()], in milliseconds),
    the token endpoint, the profile endpoint [GET /athlete] as a function of
    the bearer token, and what the other tasks of the plugin do to the global
    settings while this one is suspended on the token endpoint (the identity
    when nothing else runs). *)
Record Env : Type := mkEnv {
  dateNow : Z;
  tokenEndpoint : TokenRequest -> HttpResult TokenResponse;
  athleteEndpoint : string -> HttpResult Athlete;
  concurrent : Settings -> Settings
}.

(** ** Computations *)

Inductive LogLevel : Type := LInfo | LWarn | LError.

Inductive Event : Type :=
  | EvGetGlobal (read : Settings)
  | EvSetGlobal (written : Settings)
  | EvTokenPost (req : TokenRequest)
  | EvApiGet (path : string) (params : list (string * Z)) (token : string)
  | EvLog (lvl : LogLevel) (msg : string)
  | EvSetSettings (actionId : string) (s : Settings)
  | EvSetTitle (actionId title : string)
  | EvSetImage (actionId image : string)
  | EvShowOk (actionId : string)
  | EvShowAlert (actionId : string).

Inductive Result (A : Type) : Type :=
  | Ok (a : A)
  | Throw (e : JsError).
Arguments Ok {A} a.
Arguments Throw {A} e.

(** A computation starts from the global settings and yields its completion,
    the global settings it leaves, and its trace in chronological order. *)
Definition M (A : Type) : Type := Settings -> Result A * Settings * list Event.

Definition ret {A : Type} (a : A) : M A := fun s => (Ok a, s, []).

Definition throw {A : Type} (e : JsError) : M A := fun s => (Throw e, s, []).

Definition bind {A B : Type} (m : M A) (k : A -> M B) : M B :=
  fun s =>
    match m s with
    | (Ok a, s1, t1) => let '(r, s2, t2) := k a s1 in (r, s2, (t1 ++ t2)%list)
    | (Throw e, s1, t1) => (Throw e, s1, t1)
    end.

(** [try { body } catch (error) { handler }]. *)
Definition tryCatch {A : Type} (body : M A) (handler : JsError -> M A) : M A :=
  fun s =>
    match body s with
    | (Ok a, s1, t1) => (Ok a, s1, t1)
    | (Throw e, s1, t1) => let '(r, s2, t2) := handler e s1 in (r, s2, (t1 ++ t2)%list)
    end.

Definition emit (ev : Event) : M unit := fun s => (Ok tt, s, [ev]).

Notation "x <- m ;; k" := (bind m (fun x => k))
  (at level 100, m at next level, right associativity).
Notation "m ;;; k" := (bind m (fun _ => k))
  (at level 100, right associativity).

(** [for (const x of xs) { await body(x) }]. *)
Fixpoint forEach {A : Type} (xs : list A) (body : A -> M unit) : M unit :=
  match xs with
  | [] => ret tt
  | x :: rest => body x ;;; forEach rest body
  end.

Definition completion {A : Type} (out : Result A * Settings * list Event) : Result A :=
  fst (fst out).
Definition finalStore {A : Type} (out : Result A * Settings * list Event) : Settings :=
  snd (fst out).
Definition trace {A : Type} (out : Result A * Settings * list Event) : list Event :=
  snd out.

(** [streamDeck.settings.getGlobalSettings()] and [setGlobalSettings(o)]. *)
Definition getGlobalSettings : M Settings := fun s => (Ok s, s, [EvGetGlobal s]).

Definition setGlobalSettings (o : Settings) : M unit :=
  fun _ => (Ok tt, o, [EvSetGlobal o]).

(** [axios.post("https://www.strava.com/oauth/token", body)]. *)
Definition postToken (env : Env) (req : TokenRequest) : M TokenResponse :=
  fun s =>
    match tokenEndpoint env req with
    | HttpOk r => (Ok r, concurrent env s, [EvTokenPost req])
    | HttpErr e => (Throw e, concurrent env s, [EvTokenPost req])
    end.

(** [this.axiosInstance.get(path, { params })] with the bearer token of the
    service instance; [answer] is what the upstream API replies. *)
Definition apiGet {A : Type} (path : string) (params : list (string * Z))
    (token : string) (answer : HttpResult A) : M A :=
  fun s =>
    match answer with
    | HttpOk a => (Ok a, s, [EvApiGet path params token])
    | HttpErr e => (Throw e, s, [EvApiGet path params token])
    end.

(** The line feed of the button titles. *)
Definition LF : string := String (ascii_of_nat 10) EmptyString.

(** A value interpolated in a template literal. *)
Definition template (v : JsVal) : string :=
  match v with
  | JUndef => "undefined"
  | JNull => "null"
  | JBool true => "true"
  | JBool false => "false"
  | JNum z => pretty z
  | JStr s => s
  end.

(** ** StravaService *)

Module StravaService.

Definition exchangeAuthorizationCode (env : Env)
    (clientId clientSecret authCode : string) : M TokenResponse :=
  tryCatch
    (postToken env (AuthorizationCodeGrant clientId clientSecret authCode))
    (fun error =>
       throw (newError ("Failed to exchange authorization code: " +:+ errToString error))).

Definition refreshAccessToken (env : Env)
    (clientId clientSecret refreshToken : string) : M TokenResponse :=
  tryCatch
    (postToken env (RefreshTokenGrant clientId clientSecret refreshToken))
    (fun error =>
       throw (newError ("Failed to refresh access token: " +:+ errToString error))).

(** [Math.floor(Date.now() / 1000)]. *)
Definition nowSeconds (env : Env) : Z := dateNow env / 1000.

(** The result [string | null] is an [option]; the [catch] block logs the
    error with [console.error] and returns [null]. *)
Definition getValidAccessToken (env : Env) : M (option string) :=
  tryCatch
    (settings <- getGlobalSettings ;;
     let accessToken := stringOr (prop settings "accessToken") Some None in
     let refreshToken := stringOr (prop settings "refreshToken") Some None in
     let clientId := stringOr (prop settings "clientId") Some None in
     let clientSecret := stringOr (prop settings "clientSecret") Some None in
     let expiresAt := numberOr (prop settings "expiresAt") 0 in
     if negb (truthyStr accessToken) || negb (truthyStr refreshToken) then ret None
     else
       let now := nowSeconds env in
       if expiresAt - 300 >? now then ret accessToken
       else if negb (truthyStr clientId) || negb (truthyStr clientSecret) then ret None
       else
         tokenResponse <- refreshAccessToken env
                            (default "" clientId) (default "" clientSecret)
                            (default "" refreshToken) ;;
         setGlobalSettings
           (<["expiresAt" := JNum (expires_at tokenResponse)]>
              (<["refreshToken" := JStr (refresh_token tokenResponse)]>
                 (<["accessToken" := JStr (access_token tokenResponse)]> settings))) ;;;
         ret (Some (access_token tokenResponse)))
    (fun error =>
       emit (EvLog LError ("Failed to get valid access token: " +:+ errToString error)) ;;;
       ret None).

(** [new StravaService(accessToken).getAuthenticatedAthlete()]. *)
Definition getAuthenticatedAthlete (env : Env) (accessToken : string) : M Athlete :=
  tryCatch
    (apiGet "/athlete" [] accessToken (athleteEndpoint env accessToken))
    (fun error =>
       throw (newError ("Failed to fetch athlete profile: " +:+ errToString error))).

(** [getAthleteStats(athleteId)] and [getActivities(page, perPage)]; the
    payloads of these endpoints are left abstract, and the endpoints are
    functions of the bearer token and of the arguments of the call. *)
Definition getAthleteStats {Stats : Type}
    (statsEndpoint : string -> Z -> HttpResult Stats)
    (accessToken : string) (athleteId : Z) : M Stats :=
  tryCatch
    (apiGet ("/athletes/" +:+ pretty athleteId +:+ "/stats") [] accessToken
       (statsEndpoint accessToken athleteId))
    (fun error =>
       throw (newError ("Failed to fetch athlete stats: " +:+ errToString error))).

Definition getActivities {Activity : Type}
    (activitiesEndpoint : string -> Z -> Z -> HttpResult (list Activity))
    (accessToken : string) (page perPage : Z) : M (list Activity) :=
  tryCatch
    (apiGet "/athlete/activities" [("page", page); ("per_page", perPage)] accessToken
       (activitiesEndpoint accessToken page perPage))
    (fun error =>
       throw (newError ("Failed to fetch activities: " +:+ errToString error))).

(** [getActivities(page, perPage, after)], the call with its third argument:
    [if (after) params.after = after] adds the filter unless it is 0. *)
Definition getActivitiesAfter {Activity : Type}
    (activitiesEndpoint : string -> Z -> Z -> Z -> HttpResult (list Activity))
    (accessToken : string) (page perPage after : Z) : M (list Activity) :=
  tryCatch
    (apiGet "/athlete/activities"
       ([("page", page); ("per_page", perPage)]
        ++ (if after =? 0 then [] else [("after", after)]))%list
       accessToken (activitiesEndpoint accessToken page perPage after))
    (fun error =>
       throw (newError ("Failed to fetch activities: " +:+ errToString error))).

(** [s.padStart(targetLength, fill)] for a fill of one character. *)
Fixpoint padding (n : nat) (fill : ascii) : string :=
  match n with
  | O => EmptyString
  | S n' => String fill (padding n' fill)
  end.

Definition padStart (targetLength : nat) (fill : ascii) (s : string) : string :=
  padding (targetLength - String.length s) fill +:+ s.

(** [formatTime(seconds)] on a whole number of seconds below 2^53 in absolute
    value: there [Math.floor] of a quotient is the floored division, [%] is
    the remainder that takes the sign of the dividend, and a number is
    interpolated in decimal. *)
Definition formatTime (seconds : Z) : string :=
  let hours := seconds / 3600 in
  let minutes := Z.rem seconds 3600 / 60 in
  let secs := Z.rem seconds 60 in
  if hours >? 0
  then pretty hours +:+ ":" +:+ padStart 2 "0" (pretty minutes)
       +:+ ":" +:+ padStart 2 "0" (pretty secs)
  else pretty minutes +:+ ":" +:+ padStart 2 "0" (pretty secs).

End StravaService.

(** ** The OAuth setup action *)

(** An action instance of [this.actions]; key actions offer [showOk] and
    [showAlert], dials only the latter. *)
Record ActionHandle : Type := mkActionHandle {
  handleId : string;
  hasShowOk : bool;
  hasShowAlert : bool
}.

(** The payload of a property-inspector message. *)
Record PluginMessage : Type := mkPluginMessage {
  msgEvent : string;
  msgClientId : string;
  msgClientSecret : string;
  msgAuthCode : string
}.

Module StravaOAuth.

Section Action.

Variable env : Env.
Variable actions : list ActionHandle.

Definition validateApiConnection (accessToken : string) : M bool :=
  tryCatch
    (athlete <- StravaService.getAuthenticatedAthlete env accessToken ;;
     emit (EvLog LInfo ("API validation successful - Connected as "
                        +:+ default "undefined" (firstname athlete) +:+ " "
                        +:+ default "undefined" (lastname athlete))) ;;;
     ret true)
    (fun error =>
       emit (EvLog LError ("API validation failed: " +:+ errToString error)) ;;;
       ret false).

(** The hours left are the floored quotient for an expiry and a time below
    2^53, where the doubles of the code are exact. *)
Definition updateDisplay : M unit :=
  globalSettings <- getGlobalSettings ;;
  let title :=
    if truthy (prop globalSettings "accessToken")
       && truthy (prop globalSettings "refreshToken")
    then
      let expiresAt := numberOr (prop globalSettings "expiresAt") 0 in
      let now := StravaService.nowSeconds env in
      if expiresAt >? now
      then "✅" +:+ LF +:+ "Connected" +:+ LF
           +:+ pretty ((expiresAt - now) / 3600) +:+ "h left"
      else "⚠️" +:+ LF +:+ "Token" +:+ LF +:+ "Expired"
    else if truthy (prop globalSettings "clientId")
            && truthy (prop globalSettings "clientSecret")
    then "⚙️ Ready" +:+ LF +:+ "to Auth"
    else "❌ Not" +:+ LF +:+ "Configured" in
  forEach actions (fun action => emit (EvSetTitle (handleId action) title)).

(** The feedback loop that closes a refresh and an exchange. *)
Definition showFeedback (isValid : bool) : M unit :=
  forEach actions (fun action =>
    if isValid && hasShowOk action then emit (EvShowOk (handleId action))
    else if negb isValid && hasShowAlert action then emit (EvShowAlert (handleId action))
    else ret tt).

Definition showAlerts : M unit :=
  forEach actions (fun action =>
    if hasShowAlert action then emit (EvShowAlert (handleId action)) else ret tt).

Definition exchangeToken (clientId clientSecret authCode : string) : M unit :=
  tryCatch
    (tokenResponse <- StravaService.exchangeAuthorizationCode env
                        clientId clientSecret authCode ;;
     currentSettings <- getGlobalSettings ;;
     setGlobalSettings
       (<["athleteId" := match athlete tokenResponse with
                         | Some a => JNum (athleteId a)
                         | None => JUndef
                         end]>
          (<["expiresAt" := JNum (expires_at tokenResponse)]>
             (<["refreshToken" := JStr (refresh_token tokenResponse)]>
                (<["accessToken" := JStr (access_token tokenResponse)]>
                   (<["clientSecret" := JStr clientSecret]>
                      (<["clientId" := JStr clientId]> currentSettings)))))) ;;;
     forEach actions (fun action =>
       emit (EvSetSettings (handleId action)
               (<["authCode" := JStr ""]>
                  (<["expiresAt" := JNum (expires_at tokenResponse)]>
                     (<["refreshToken" := JStr (refresh_token tokenResponse)]>
                        (<["accessToken" := JStr (access_token tokenResponse)]>
                           (<["clientSecret" := JStr clientSecret]>
                              (<["clientId" := JStr clientId]> ∅)))))))) ;;;
     isValid <- validateApiConnection (access_token tokenResponse) ;;
     updateDisplay ;;;
     showFeedback isValid)
    (fun error =>
       emit (EvLog LError ("Failed to exchange token: " +:+ errToString error)) ;;;
       showAlerts).

Definition onWillAppear (settings : Settings) : M unit :=
  globalSettings <- getGlobalSettings ;;
  (if truthy (prop globalSettings "clientId")
      || truthy (prop globalSettings "clientSecret")
      || truthy (prop globalSettings "accessToken")
   then
     let pick (k : string) (isType : JsVal -> bool) :=
       if isType (prop globalSettings k) then prop globalSettings k
       else prop settings k in
     let isString v := match v with JStr _ => true | _ => false end in
     let isNumber v := match v with JNum _ => true | _ => false end in
     let updatedSettings : Settings :=
       <["expiresAt" := pick "expiresAt" isNumber]>
         (<["refreshToken" := pick "refreshToken" isString]>
            (<["accessToken" := pick "accessToken" isString]>
               (<["clientSecret" := pick "clientSecret" isString]>
                  (<["clientId" := pick "clientId" isString]> settings)))) in
     forEach actions (fun action =>
       emit (EvSetSettings (handleId action) updatedSettings))
   else ret tt) ;;;
  updateDisplay.

Definition onDidReceiveSettings (settings : Settings) : M unit :=
  (if truthy (prop settings "clientId") || truthy (prop settings "clientSecret")
   then
     globalSettings <- getGlobalSettings ;;
     setGlobalSettings
       (<["clientSecret" := prop settings "clientSecret"]>
          (<["clientId" := prop settings "clientId"]> globalSettings))
   else ret tt) ;;;
  let authCode := stringOr (prop settings "authCode") trim "" in
  let clientId := stringOr (prop settings "clientId") id "" in
  let clientSecret := stringOr (prop settings "clientSecret") id "" in
  (if negb (String.eqb authCode "")
      && negb (String.eqb clientId "") && negb (String.eqb clientSecret "")
   then
     globalSettings <- getGlobalSettings ;;
     if negb (truthy (prop globalSettings "accessToken"))
     then exchangeToken clientId clientSecret authCode
     else ret tt
   else ret tt) ;;;
  updateDisplay.

Definition onKeyDown (settings : Settings) : M unit :=
  globalSettings <- getGlobalSettings ;;
  (if truthy (prop globalSettings "refreshToken")
   then
     tryCatch
       (let clientId := stringOr (prop globalSettings "clientId") id "" in
        let clientSecret := stringOr (prop globalSettings "clientSecret") id "" in
        let refreshToken := stringOr (prop globalSettings "refreshToken") id "" in
        if negb (String.eqb clientId "") && negb (String.eqb clientSecret "")
           && negb (String.eqb refreshToken "")
        then
          tokenResponse <- StravaService.refreshAccessToken env
                             clientId clientSecret refreshToken ;;
          setGlobalSettings
            (<["expiresAt" := JNum (expires_at tokenResponse)]>
               (<["refreshToken" := JStr (refresh_token tokenResponse)]>
                  (<["accessToken" := JStr (access_token tokenResponse)]>
                     globalSettings))) ;;;
          forEach actions (fun action =>
            emit (EvSetSettings (handleId action)
                    (<["expiresAt" := JNum (expires_at tokenResponse)]>
                       (<["refreshToken" := JStr (refresh_token tokenResponse)]>
                          (<["accessToken" := JStr (access_token tokenResponse)]>
                             settings))))) ;;;
          isValid <- validateApiConnection (access_token tokenResponse) ;;
          showFeedback isValid
        else ret tt)
       (fun error =>
          emit (EvLog LError ("Failed to refresh token: " +:+ errToString error)) ;;;
          showAlerts)
   else ret tt) ;;;
  updateDisplay.

Definition onSendToPlugin (payload : PluginMessage) : M unit :=
  if String.eqb (msgEvent payload) "exchangeToken"
  then exchangeToken (msgClientId payload) (msgClientSecret payload)
         (msgAuthCode payload)
  else ret tt.

End Action.

End StravaOAuth.

(** ** The display actions *)

(** The test that opens the [catch] block of every display action:
    [error?.response?.status === 429 || error?.status === 429 ||
     (error?.message && error.message.includes('429')) ||
     (error?.toString && error.toString().includes('429'))]. *)
Definition statusIs429 (status : option Z) : bool :=
  match status with
  | Some code => code =? 429
  | None => false
  end.

Definition is429 (error : JsError) : bool :=
  statusIs429 (errResponseStatus error)
  || statusIs429 (errStatus error)
  || (negb (String.eqb (errMessage error) "") && includes "429" (errMessage error))
  || includes "429" (errToString error).

(** The fixed labels. *)
Definition titleSetupOAuth : string := "Setup" +:+ LF +:+ "OAuth" +:+ LF +:+ "First".
Definition titleRateLimit : string := "Rate" +:+ LF +:+ "Limit" +:+ LF +:+ "Wait 30m".
Definition titleCheckToken : string := "Error" +:+ LF +:+ "Check" +:+ LF +:+ "Token".
Definition titleRefreshAuth : string := "Error" +:+ LF +:+ "Refresh" +:+ LF +:+ "Auth".
Definition titleNoActivity : string := "No" +:+ LF +:+ "Activity".

(** [const action = streamDeck.actions.getActionById(actionId);
     if (action) await action.setTitle(title)], where [visible] tells whether
    the host finds the action. *)
Definition setTitleIfVisible (visible : string -> bool) (actionId title : string) : M unit :=
  if visible actionId then emit (EvSetTitle actionId title) else ret tt.

(** The interval timers of the host. [setInterval] hands out a fresh timer
    for a callback, here the periodic update of an action with the settings
    it appeared with (every 30 minutes); [clearInterval] stops a timer. *)
Record Interval : Type := mkInterval {
  intervalId : nat;
  intervalAction : string;
  intervalSettings : Settings
}.

Record Timers : Type := mkTimers {
  nextInterval : nat;
  running : list Interval
}.

Definition setInterval (actionId : string) (settings : Settings) (timers : Timers)
    : nat * Timers :=
  (nextInterval timers,
   {| nextInterval := S (nextInterval timers);
      running := running timers
                 ++ [mkInterval (nextInterval timers) actionId settings] |}).

Definition clearInterval (timer : nat) (timers : Timers) : Timers :=
  {| nextInterval := nextInterval timers;
     running := List.filter (fun i => negb (intervalId i =? timer)%nat) (running timers) |}.

(** The statistics and activities that the display actions fetch are consumed
    by the label formatting only (floating-point arithmetic on distances and
    times); that formatting is a parameter of each action. *)

Module StravaYear.

Section Action.

Context {Stats : Type}.
Variable env : Env.
Variable statsEndpoint : string -> Z -> HttpResult Stats.
Variable visible : string -> bool.
(** The label text and the test [goal && currentValue >= goal]. *)
Variable displayText : Settings -> Stats -> string.
Variable goalReached : Settings -> Stats -> bool.

Definition body (actionId : string) (settings : Settings) : M unit :=
  accessToken <- StravaService.getValidAccessToken env ;;
  if negb (truthyStr accessToken)
  then setTitleIfVisible visible actionId titleSetupOAuth
  else
    let token := default "" accessToken in
    athlete <- StravaService.getAuthenticatedAthlete env token ;;
    stats <- StravaService.getAthleteStats statsEndpoint token (athleteId athlete) ;;
    if visible actionId then
      emit (EvSetTitle actionId (displayText settings stats)) ;;;
      if goalReached settings stats
      then emit (EvSetImage actionId "imgs/keys/background-goalreach")
      else emit (EvSetImage actionId "imgs/keys/background")
    else ret tt.

(** The [catch] block; the JSON rendering of the error that ends the last
    log line is left out. *)
Definition onError (actionId : string) (error : JsError) : M unit :=
  if is429 error then
    (if visible actionId then
       emit (EvSetTitle actionId titleRateLimit) ;;;
       emit (EvSetImage actionId "imgs/keys/background")
     else ret tt) ;;;
    emit (EvLog LWarn
            "Rate limit exceeded for Year tracker - waiting for next refresh cycle")
  else
    (if visible actionId then
       emit (EvSetTitle actionId titleCheckToken) ;;;
       emit (EvSetImage actionId "imgs/keys/background")
     else ret tt) ;;;
    emit (EvLog LError "Failed to update Strava year: ").

Definition updateYearDisplay (actionId : string) (settings : Settings) : M unit :=
  tryCatch (body actionId settings) (onError actionId).

(** The life cycle of the action: the state is the field [refreshInterval]
    of the one instance of the class, beside the timers of the host. The
    handlers run one after the other: no timer fires and no other handler
    runs while [onWillAppear] awaits the update. *)
Definition onWillAppear (actionId : string) (settings : Settings)
    (st : option nat * Timers) : M (option nat * Timers) :=
  let timers := match fst st with
                | Some timer => clearInterval timer (snd st)
                | None => snd st
                end in
  updateYearDisplay actionId settings ;;;
  let '(timer, timers') := setInterval actionId settings timers in
  ret (Some timer, timers').

Definition onWillDisappear (st : option nat * Timers) : option nat * Timers :=
  match fst st with
  | Some timer => (None, clearInterval timer (snd st))
  | None => st
  end.

End Action.

End StravaYear.

Module LastActivity.

Section Action.

Context {Activity : Type}.
Variable env : Env.
Variable activitiesEndpoint : string -> Z -> Z -> HttpResult (list Activity).
Variable visible : string -> bool.
(** The test of the type filter on an activity, and the label text. *)
Variable matchesFilter : string -> Activity -> bool.
Variable displayText : Settings -> Activity -> string.

Definition body (actionId : string) (settings : Settings) : M unit :=
  accessToken <- StravaService.getValidAccessToken env ;;
  if negb (truthyStr accessToken)
  then setTitleIfVisible visible actionId titleSetupOAuth
  else
    let token := default "" accessToken in
    activities <- StravaService.getActivities activitiesEndpoint token 1 1 ;;
    match activities with
    | [] => setTitleIfVisible visible actionId titleNoActivity
    | first :: _ =>
        let filterType := prop settings "filterType" in
        if truthy filterType
           && negb (match filterType with JStr "all" => true | _ => false end)
        then
          filteredActivities <- StravaService.getActivities activitiesEndpoint token 1 10 ;;
          match List.find (matchesFilter (template filterType)) filteredActivities with
          | None =>
              setTitleIfVisible visible actionId ("No" +:+ LF +:+ template filterType)
          | Some filtered =>
              setTitleIfVisible visible actionId (displayText settings filtered)
          end
        else setTitleIfVisible visible actionId (displayText settings first)
    end.

(** The [catch] block; the JSON rendering of the error that ends the last
    log line is left out. *)
Definition onError (actionId : string) (error : JsError) : M unit :=
  if is429 error then
    setTitleIfVisible visible actionId titleRateLimit ;;;
    emit (EvLog LWarn
            "Rate limit exceeded for Last Activity - waiting for next refresh cycle")
  else
    setTitleIfVisible visible actionId titleRefreshAuth ;;;
    emit (EvLog LError "Failed to update last activity: ").

Definition updateLastActivityDisplay (actionId : string) (settings : Settings) : M unit :=
  tryCatch (body actionId settings) (onError actionId).

End Action.

End LastActivity.

Module StravaWeek.

(** [dayOfWeek === 0 ? 6 : dayOfWeek - 1], for the [getDay()] of today. *)
Definition daysFromMonday (dayOfWeek : Z) : Z :=
  if dayOfWeek =? 0 then 6 else dayOfWeek - 1.

Section Action.

Context {Activity : Type}.
Variable env : Env.
Variable activitiesEndpoint : string -> Z -> Z -> Z -> HttpResult (list Activity).
Variable visible : string -> bool.
(** [Math.floor(monday.getTime() / 1000)]: the start of the current week in
    local time, as the [Date] of the run gives it. *)
Variable afterTimestamp : Z.
(** The label text of the filtered totals and the test
    [goal && currentValue >= goal]. *)
Variable displayText : Settings -> list Activity -> string.
Variable goalReached : Settings -> list Activity -> bool.

Definition body (actionId : string) (settings : Settings) : M unit :=
  accessToken <- StravaService.getValidAccessToken env ;;
  if negb (truthyStr accessToken)
  then setTitleIfVisible visible actionId titleSetupOAuth
  else
    let token := default "" accessToken in
    activities <- StravaService.getActivitiesAfter activitiesEndpoint token
                    1 200 afterTimestamp ;;
    if visible actionId then
      emit (EvSetTitle actionId (displayText settings activities)) ;;;
      if goalReached settings activities
      then emit (EvSetImage actionId "imgs/keys/background-goalreach")
      else emit (EvSetImage actionId "imgs/keys/background")
    else ret tt.

(** The [catch] block; the JSON rendering of the error that ends the last
    log line is left out. *)
Definition onError (actionId : string) (error : JsError) : M unit :=
  if is429 error then
    (if visible actionId then
       emit (EvSetTitle actionId titleRateLimit) ;;;
       emit (EvSetImage actionId "imgs/keys/background")
     else ret tt) ;;;
    emit (EvLog LWarn
            "Rate limit exceeded for Week tracker - waiting for next refresh cycle")
  else
    (if visible actionId then
       emit (EvSetTitle actionId titleCheckToken) ;;;
       emit (EvSetImage actionId "imgs/keys/background")
     else ret tt) ;;;
    emit (EvLog LError "Failed to update Strava week: ").

Definition updateWeekDisplay (actionId : string) (settings : Settings) : M unit :=
  tryCatch (body actionId settings) (onError actionId).

(** The life cycle of the action: the state is the map [refreshIntervals]
    from action ids to timers, beside the timers of the host. The handlers
    run one after the other, as for the year action. *)
Definition onWillAppear (actionId : string) (settings : Settings)
    (st : gmap string nat * Timers) : M (gmap string nat * Timers) :=
  let timers := match fst st !! actionId with
                | Some existingInterval => clearInterval existingInterval (snd st)
                | None => snd st
                end in
  updateWeekDisplay actionId settings ;;;
  let '(interval, timers') := setInterval actionId settings timers in
  ret (<[actionId := interval]> (fst st), timers').

Definition onWillDisappear (actionId : string) (st : gmap string nat * Timers)
    : gmap string nat * Timers :=
  match fst st !! actionId with
  | Some interval => (delete actionId (fst st), clearInterval interval (snd st))
  | None => st
  end.

End Action.

End StravaWeek.

(** ** Vocabulary of the properties *)

(** The record holds the non-empty string [v] under [k]; the record holds no
    usable string under [k] (nothing, a value of another type, or [""]). *)
Definition storedString (s : Settings) (k v : string) : Prop :=
  s !! k = Some (JStr v) /\ v <> "".

Definition lacksString (s : Settings) (k : string) : Prop :=
  forall v, s !! k = Some (JStr v) -> v = "".

(** The stored expiry, as the service reads it. *)
Definition storedExpiresAt (s : Settings) : Z := numberOr (prop s "expiresAt") 0.

(** Network calls, store writes and store reads of a trace. *)
Definition isNetworkCall (ev : Event) : bool :=
  match ev with
  | EvTokenPost _ | EvApiGet _ _ _ => true
  | _ => false
  end.

Definition networkCalls (tr : list Event) : list Event := List.filter isNetworkCall tr.

Fixpoint tokenCalls (tr : list Event) : list TokenRequest :=
  match tr with
  | [] => []
  | EvTokenPost req :: rest => req :: tokenCalls rest
  | _ :: rest => tokenCalls rest
  end.

Fixpoint writes (tr : list Event) : list Settings :=
  match tr with
  | [] => []
  | EvSetGlobal o :: rest => o :: writes rest
  | _ :: rest => writes rest
  end.

Fixpoint reads (tr : list Event) : list Settings :=
  match tr with
  | [] => []
  | EvGetGlobal o :: rest => o :: reads rest
  | _ :: rest => reads rest
  end.

(** The events that follow the first call of the token endpoint. *)
Fixpoint afterTokenCall (tr : list Event) : list Event :=
  match tr with
  | [] => []
  | EvTokenPost _ :: rest => rest
  | _ :: rest => afterTokenCall rest
  end.

(** The store view of a run: its completion, the store it leaves, and the
    part of its trace that concerns the store and the token endpoint. *)
Definition onStore (ev : Event) : bool :=
  match ev with
  | EvGetGlobal _ | EvSetGlobal _ | EvTokenPost _ => true
  | _ => false
  end.

Definition storeTrace (tr : list Event) : list Event := List.filter onStore tr.

Definition view {A : Type} (out : Result A * Settings * list Event)
    : Result A * Settings * list Event :=
  (completion out, finalStore out, storeTrace (trace out)).

(** The titles that a trace sets on the buttons. *)
Fixpoint titles (tr : list Event) : list string :=
  match tr with
  | [] => []
  | EvSetTitle _ t :: rest => t :: titles rest
  | _ :: rest => titles rest
  end.

(** The outcome of a call of [getValidAccessToken] that hands out the stored
    token as it is: the token comes from the one store read of the call, with
    no other interaction. *)
Definition reusesStoredToken (s : Settings) (stored : string)
    (out : Result (option string) * Settings * list Event) : Prop :=
  completion out = Ok (Some stored) /\ finalStore out = s /\ trace out = [EvGetGlobal s].





(** The refresh of [getValidAccessToken] is reached and the endpoint grants it. *)
Definition refreshSucceeds (env : Env) (s : Settings) : Prop :=
  exists accessToken refreshToken clientId clientSecret r,
    storedString s "accessToken" accessToken
    /\ storedString s "refreshToken" refreshToken
    /\ storedString s "clientId" clientId
    /\ storedString s "clientSecret" clientSecret
    /\ ~ storedExpiresAt s - 300 > StravaService.nowSeconds env
    /\ tokenEndpoint env (RefreshTokenGrant clientId clientSecret refreshToken) = HttpOk r.

(** The stored access token [stored] is still usable at the time of [env]:
    both tokens are stored and the expiry is more than 300 seconds away. *)
Definition stillValid (env : Env) (s : Settings) (stored : string) : Prop :=
  exists refreshToken,
    storedString s "accessToken" stored
    /\ storedString s "refreshToken" refreshToken
    /\ storedExpiresAt s - 300 > StravaService.nowSeconds env.

(** [needle] occurs in [hay]. *)
Definition occursIn (needle hay : string) : Prop :=
  exists before after, hay = before +:+ needle +:+ after.

(** An error carries the status 429: as [error.response.status], as
    [error.status], or as the text "429" in its message or in its string
    form. *)
Definition carries429 (error : JsError) : Prop :=
  errResponseStatus error = Some 429
  \/ errStatus error = Some 429
  \/ occursIn "429" (errMessage error)
  \/ occursIn "429" (errToString error).

(** *** The setup action, statement by statement *)

(** The record that a successful exchange stores over [current]. *)
Definition exchanged (clientId clientSecret : string) (r : TokenResponse)
    (current : Settings) : Settings :=
  <["athleteId" := match athlete r with
                   | Some a => JNum (athleteId a)
                   | None => JUndef
                   end]>
    (<["expiresAt" := JNum (expires_at r)]>
       (<["refreshToken" := JStr (refresh_token r)]>
          (<["accessToken" := JStr (access_token r)]>
             (<["clientSecret" := JStr clientSecret]>
                (<["clientId" := JStr clientId]> current))))).

(** The record that a successful refresh stores over [current]. *)
Definition refreshed (r : TokenResponse) (current : Settings) : Settings :=
  <["expiresAt" := JNum (expires_at r)]>
    (<["refreshToken" := JStr (refresh_token r)]>
       (<["accessToken" := JStr (access_token r)]> current)).

(** The record that [onDidReceiveSettings] stores over [current] when the
    action settings carry a client id or a client secret. *)
Definition synced (settings current : Settings) : Settings :=
  <["clientSecret" := prop settings "clientSecret"]>
    (<["clientId" := prop settings "clientId"]> current).

(** The store and the store trace after the first statement of
    [onDidReceiveSettings]. *)
Definition afterSync (settings s : Settings) : Settings * list Event :=
  if truthy (prop settings "clientId") || truthy (prop settings "clientSecret")
  then (synced settings s, [EvGetGlobal s; EvSetGlobal (synced settings s)])
  else (s, []).

(** The test that lets [onDidReceiveSettings] look at the stored token. *)
Definition codeSubmitted (settings : Settings) : bool :=
  negb (String.eqb (stringOr (prop settings "authCode") trim "") "")
  && negb (String.eqb (stringOr (prop settings "clientId") id "") "")
  && negb (String.eqb (stringOr (prop settings "clientSecret") id "") "").

(** The refresh that [onKeyDown] makes, when it makes one. *)
Definition keyDownRefresh (s : Settings) : option TokenRequest :=
  let clientId := stringOr (prop s "clientId") id "" in
  let clientSecret := stringOr (prop s "clientSecret") id "" in
  let refreshToken := stringOr (prop s "refreshToken") id "" in
  if truthy (prop s "refreshToken")
     && (negb (String.eqb clientId "") && negb (String.eqb clientSecret "")
         && negb (String.eqb refreshToken ""))
  then Some (RefreshTokenGrant clientId clientSecret refreshToken)
  else None.

(** *** Further projections of traces *)

(** The bearer tokens of the API calls, the actions alerted, the actions
    shown the OK mark, and the settings sent to the actions. *)
Fixpoint apiTokens (tr : list Event) : list string :=
  match tr with
  | [] => []
  | EvApiGet _ _ token :: rest => token :: apiTokens rest
  | _ :: rest => apiTokens rest
  end.

Fixpoint alerts (tr : list Event) : list string :=
  match tr with
  | [] => []
  | EvShowAlert a :: rest => a :: alerts rest
  | _ :: rest => alerts rest
  end.

Fixpoint oks (tr : list Event) : list string :=
  match tr with
  | [] => []
  | EvShowOk a :: rest => a :: oks rest
  | _ :: rest => oks rest
  end.

(** A field of [formatTime] in two digits. *)
Definition twoDigits (n : Z) : string :=
  if n <? 10 then "0" +:+ pretty n else pretty n.

(** The title of the setup action while the token has [hoursLeft] hours. *)
Definition titleConnected (hoursLeft : Z) : string :=
  "✅" +:+ LF +:+ "Connected" +:+ LF +:+ pretty hoursLeft +:+ "h left".

(** The part of a run that a test on events selects, with the completion
    and the final store. *)
Definition observe {A : Type} (p : Event -> bool)
    (out : Result A * Settings * list Event) : Result A * Settings * list Event :=
  (completion out, finalStore out, List.filter p (trace out)).

Definition isFeedback (ev : Event) : bool :=
  match ev with
  | EvShowOk _ | EvShowAlert _ => true
  | _ => false
  end.

Definition isTitle (ev : Event) : bool :=
  match ev with
  | EvSetTitle _ _ => true
  | _ => false
  end.

(** *** Histories of a display action *)

Inductive ButtonEvent : Type :=
  | WillAppear (actionId : string) (settings : Settings)
  | WillDisappear (actionId : string).

(** The handlers of a history, one after the other. *)
Fixpoint runEvents {S : Type}
    (appear : string -> Settings -> S -> M S) (disappear : string -> S -> S)
    (history : list ButtonEvent) (st : S) : M S :=
  match history with
  | [] => ret st
  | WillAppear a settings :: rest =>
      st' <- appear a settings st ;; runEvents appear disappear rest st'
  | WillDisappear a :: rest => runEvents appear disappear rest (disappear a st)
  end.

(** The action and settings of the last event of a history when that event
    is an appearance. *)
Definition lastAppeared (history : list ButtonEvent) : option (string * Settings) :=
  match List.last history (WillDisappear "") with
  | WillAppear a settings => Some (a, settings)
  | WillDisappear _ => None
  end.

(** What the last event of a history about the action [a] leaves: the
    settings it appeared with, or nothing when it disappeared or never
    appeared. *)
Fixpoint shownWith (history : list ButtonEvent) (a : string) (before : option Settings)
    : option Settings :=
  match history with
  | [] => before
  | WillAppear a' settings :: rest =>
      shownWith rest a (if String.eqb a' a then Some settings else before)
  | WillDisappear a' :: rest =>
      shownWith rest a (if String.eqb a' a then None else before)
  end.

(** The last event of a history as an appearance, and the state of the year
    action that it leaves: one timer, for the action that appeared last. *)
Definition asLast (ev : ButtonEvent) : option (string * Settings) :=
  match ev with
  | WillAppear a settings => Some (a, settings)
  | WillDisappear _ => None
  end.

Definition yearInvariant (st : option nat * Timers) (last : option (string * Settings))
    : Prop :=
  match last with
  | Some (a, settings) =>
      exists timer, fst st = Some timer /\ running (snd st) = [mkInterval timer a settings]
  | None => fst st = None /\ running (snd st) = []
  end.

(** The running timers of the action [a], and the state of the week action
    after a history that leaves the actions shown as [shown] tells: the map
    [refreshIntervals] holds one timer for each action shown, these timers
    are distinct, and they are the running ones. *)
Definition intervalsOf (a : string) (l : list Interval) : list Interval :=
  List.filter (fun i => String.eqb (intervalAction i) a) l.

Definition weekInvariant (st : gmap string nat * Timers)
    (shown : string -> option Settings) : Prop :=
  (forall a,
     match shown a with
     | Some settings =>
         exists timer, fst st !! a = Some timer
                       /\ intervalsOf a (running (snd st)) = [mkInterval timer a settings]
     | None => fst st !! a = None /\ intervalsOf a (running (snd st)) = []
     end)
  /\ (forall a timer, fst st !! a = Some timer -> (timer < nextInterval (snd st))%nat)
  /\ (forall a b timer, fst st !! a = Some timer -> fst st !! b = Some timer -> a = b).

(** The settings of the running timers of the action [a]. *)
Definition timersOf (a : string) (timers : Timers) : list Settings :=
  List.map intervalSettings
    (List.filter (fun i => String.eqb (intervalAction i) a) (running timers)).

Definition noTimers : Timers := {| nextInterval := 0; running := [] |}.

(** ** Sample runs *)

Module Sample.

(** A configured record whose token expires at second 1100. *)
Definition configured : Settings :=
  <["accessToken" := JStr "A0"]>
    (<["refreshToken" := JStr "R0"]>
       (<["clientId" := JStr "12345"]>
          (<["clientSecret" := JStr "s3cret"]>
             (<["expiresAt" := JNum 1100]> ∅)))).

(** The same tokens without the client credentials. *)
Definition tokensOnly : Settings :=
  <["accessToken" := JStr "A0"]>
    (<["refreshToken" := JStr "R0"]> (<["expiresAt" := JNum 1100]> ∅)).

(** A record without refresh token. *)
Definition noRefreshToken : Settings :=
  <["accessToken" := JStr "A0"]>
    (<["clientId" := JStr "12345"]> (<["clientSecret" := JStr "s3cret"]> ∅)).

Definition fresh : TokenResponse :=
  {| token_type := "Bearer"; expires_at := 22600; expires_in := 21600;
     refresh_token := "R1"; access_token := "A1"; athlete := None |}.

(** A response that issues the access token of [configured] again. *)
Definition reissued : TokenResponse :=
  {| token_type := "Bearer"; expires_at := 1600; expires_in := 600;
     refresh_token := "R1"; access_token := "A0"; athlete := None |}.

(** An error that shows the status 429 in [error.status] alone. *)
Definition bareStatus : JsError :=
  {| errName := ""; errMessage := ""; errStatus := Some 429;
     errResponseStatus := None |}.

(** What the HTTP client throws on a response with status 429. *)
Definition tooManyRequests : JsError :=
  {| errName := "AxiosError"; errMessage := "Request failed with status code 429";
     errStatus := Some 429; errResponseStatus := Some 429 |}.

(** What it throws on a response with status 400. *)
Definition badRequest : JsError :=
  {| errName := "AxiosError"; errMessage := "Request failed with status code 400";
     errStatus := Some 400; errResponseStatus := Some 400 |}.

Definition someone : Athlete :=
  {| athleteId := 7; firstname := Some "Ada"; lastname := None |}.

(** Environments at second 500 (the token of [configured] outlives the
    margin) and at second 1000 (it does not), with an endpoint that grants
    [fresh], that answers 429, or that answers 400. *)
Definition early : Env :=
  {| dateNow := 500999; tokenEndpoint := fun _ => HttpOk fresh;
     athleteEndpoint := fun _ => HttpOk someone; concurrent := fun o => o |}.

Definition granting : Env :=
  {| dateNow := 1000000; tokenEndpoint := fun _ => HttpOk fresh;
     athleteEndpoint := fun _ => HttpOk someone; concurrent := fun o => o |}.

Definition limited : Env :=
  {| dateNow := 1000000; tokenEndpoint := fun _ => HttpErr tooManyRequests;
     athleteEndpoint := fun _ => HttpOk someone; concurrent := fun o => o |}.

Definition rejecting : Env :=
  {| dateNow := 1000000; tokenEndpoint := fun _ => HttpErr badRequest;
     athleteEndpoint := fun _ => HttpOk someone; concurrent := fun o => o |}.

(** The refresh of this task loses the race: while it waits, another task
    stores the fresh tokens, and the endpoint rejects the consumed refresh
    token. *)
Definition raceLost : Env :=
  {| dateNow := 1000000; tokenEndpoint := fun _ => HttpErr badRequest;
     athleteEndpoint := fun _ => HttpOk someone;
     concurrent := fun o =>
       <["expiresAt" := JNum (expires_at fresh)]>
         (<["refreshToken" := JStr (refresh_token fresh)]>
            (<["accessToken" := JStr (access_token fresh)]> o)) |}.

(** Second 1000, with an endpoint that grants [reissued]. *)
Definition reissuing : Env :=
  {| dateNow := 1000000; tokenEndpoint := fun _ => HttpOk reissued;
     athleteEndpoint := fun _ => HttpOk someone; concurrent := fun o => o |}.

(** Second 30000, past the expiry of [fresh]. *)
Definition late : Env :=
  {| dateNow := 30000000; tokenEndpoint := fun _ => HttpOk fresh;
     athleteEndpoint := fun _ => HttpOk someone; concurrent := fun o => o |}.

(** The endpoint grants [fresh] while another task stores an athlete id. *)
Definition busy : Env :=
  {| dateNow := 1000000; tokenEndpoint := fun _ => HttpOk fresh;
     athleteEndpoint := fun _ => HttpOk someone;
     concurrent := fun o => <["athleteId" := JNum 9]> o |}.

(** The profile endpoint answers 429 to every token. *)
Definition apiLimited : Env :=
  {| dateNow := 500999; tokenEndpoint := fun _ => HttpOk fresh;
     athleteEndpoint := fun _ => HttpErr tooManyRequests; concurrent := fun o => o |}.

Definition key : ActionHandle :=
  {| handleId := "key-1"; hasShowOk := true; hasShowAlert := true |}.

Definition exchangeMessage : PluginMessage :=
  {| msgEvent := "exchangeToken"; msgClientId := "12345";
     msgClientSecret := "s3cret"; msgAuthCode := "c0de" |}.

(** A display action that the host finds, over an upstream API without
    statistics to format. *)
Definition shown : string -> bool := fun _ => true.
Definition noStats : string -> Z -> HttpResult unit := fun _ _ => HttpOk tt.
Definition noText : Settings -> unit -> string := fun _ _ => "".
Definition noGoal : Settings -> unit -> bool := fun _ _ => false.

(** The settings of the setup action with a pasted authorization code. *)
Definition pastedCode : Settings :=
  <["clientId" := JStr "12345"]>
    (<["clientSecret" := JStr "s3cret"]> (<["authCode" := JStr " c0de "]> ∅)).

(** A code copied with a line feed and a no-break space (U+00A0) in front
    of it and an ideographic space (U+3000) and a tab behind it. *)
Definition copiedCode : string :=
  utf8 [10; 194; 160]%nat +:+ "c0de" +:+ utf8 [227; 128; 128; 9]%nat.

Definition pastedCopiedCode : Settings :=
  <["clientId" := JStr "12345"]>
    (<["clientSecret" := JStr "s3cret"]> (<["authCode" := JStr copiedCode]> ∅)).

End Sample.

(** ** Lemmas on the embedding *)

Lemma storedString_read (s : Settings) (k v : string) :
  storedString s k v ->
  stringOr (prop s k) Some None = Some v /\ truthyStr (Some v) = true.
Proof.
  intros [Hk Hv]. unfold prop. rewrite Hk. simpl. split; [reflexivity|].
  apply negb_true_iff, String.eqb_neq, Hv.
Qed.

Lemma lacksString_read (s : Settings) (k : string) :
  lacksString s k -> truthyStr (stringOr (prop s k) Some None) = false.
Proof.
  intros H. unfold prop. destruct (s !! k) as [[]|] eqn:E; simpl; try reflexivity.
  rewrite (H _ E). reflexivity.
Qed.

Lemma lacksString_dec (s : Settings) (k : string) :
  lacksString s k \/ exists v, storedString s k v.
Proof.
  destruct (s !! k) as [[]|] eqn:E;
    try (left; intros v Hv; congruence).
  destruct (String.eqb_spec s0 "") as [->|Hne].
  - left. intros v Hv. congruence.
  - right. exists s0. split; [exact E | exact Hne].
Qed.

Lemma storedString_not_lacks (s : Settings) (k v : string) :
  storedString s k v -> ~ lacksString s k.
Proof. intros [Hk Hv] Hl. apply Hv, Hl, Hk. Qed.

Section GetValidAccessToken.

Import StravaService.

Variable env : Env.
Variable s : Settings.

(** Without an access token or without a refresh token: one store read. *)
Lemma getValidAccessToken_unauthenticated :
  lacksString s "accessToken" \/ lacksString s "refreshToken" ->
  getValidAccessToken env s = (Ok None, s, [EvGetGlobal s]).
Proof.
  intros H. unfold getValidAccessToken, tryCatch, bind, getGlobalSettings. simpl.
  destruct H as [H|H]; rewrite (lacksString_read _ _ H); simpl;
    [reflexivity | rewrite orb_true_r; reflexivity].
Qed.

Variables accessToken refreshToken : string.
Hypothesis Haccess : storedString s "accessToken" accessToken.
Hypothesis Hrefresh : storedString s "refreshToken" refreshToken.

(** A token that outlives the margin: one store read. *)
Lemma getValidAccessToken_still_valid :
  storedExpiresAt s - 300 > nowSeconds env ->
  getValidAccessToken env s = (Ok (Some accessToken), s, [EvGetGlobal s]).
Proof.
  intros Hgt. unfold getValidAccessToken, tryCatch, bind, getGlobalSettings. simpl.
  destruct (storedString_read _ _ _ Haccess) as [-> ->].
  destruct (storedString_read _ _ _ Hrefresh) as [-> ->]. simpl.
  fold (storedExpiresAt s).
  destruct (Z.gtb_spec (storedExpiresAt s - 300) (nowSeconds env)); [reflexivity | lia].
Qed.

(** A stale token without client credentials: one store read. *)
Lemma getValidAccessToken_no_client :
  ~ storedExpiresAt s - 300 > nowSeconds env ->
  lacksString s "clientId" \/ lacksString s "clientSecret" ->
  getValidAccessToken env s = (Ok None, s, [EvGetGlobal s]).
Proof.
  intros Hle H. unfold getValidAccessToken, tryCatch, bind, getGlobalSettings. simpl.
  destruct (storedString_read _ _ _ Haccess) as [-> ->].
  destruct (storedString_read _ _ _ Hrefresh) as [-> ->]. simpl.
  fold (storedExpiresAt s).
  destruct (Z.gtb_spec (storedExpiresAt s - 300) (nowSeconds env)); [lia|].
  destruct H as [H|H]; rewrite (lacksString_read _ _ H); simpl;
    [reflexivity | rewrite orb_true_r; reflexivity].
Qed.

Variables clientId clientSecret : string.
Hypothesis Hid : storedString s "clientId" clientId.
Hypothesis Hsecret : storedString s "clientSecret" clientSecret.
Hypothesis Hstale : ~ storedExpiresAt s - 300 > nowSeconds env.

(** A stale token and a refresh that succeeds. *)
Lemma getValidAccessToken_refreshed (r : TokenResponse) :
  tokenEndpoint env (RefreshTokenGrant clientId clientSecret refreshToken) = HttpOk r ->
  let written :=
    <["expiresAt" := JNum (expires_at r)]>
      (<["refreshToken" := JStr (refresh_token r)]>
         (<["accessToken" := JStr (access_token r)]> s)) in
  getValidAccessToken env s =
    (Ok (Some (access_token r)), written,
     [EvGetGlobal s;
      EvTokenPost (RefreshTokenGrant clientId clientSecret refreshToken);
      EvSetGlobal written]).
Proof.
  intros Hr. unfold getValidAccessToken, tryCatch, bind, getGlobalSettings. simpl.
  destruct (storedString_read _ _ _ Haccess) as [-> ->].
  destruct (storedString_read _ _ _ Hrefresh) as [-> ->].
  destruct (storedString_read _ _ _ Hid) as [-> ->].
  destruct (storedString_read _ _ _ Hsecret) as [-> ->]. simpl.
  fold (storedExpiresAt s).
  destruct (Z.gtb_spec (storedExpiresAt s - 300) (nowSeconds env)); [lia|].
  unfold refreshAccessToken, tryCatch, postToken. rewrite Hr. reflexivity.
Qed.

(** A stale token and a refresh that fails, with any error. *)
Lemma getValidAccessToken_refresh_failed (err : JsError) :
  tokenEndpoint env (RefreshTokenGrant clientId clientSecret refreshToken) = HttpErr err ->
  getValidAccessToken env s =
    (Ok None, concurrent env s,
     [EvGetGlobal s;
      EvTokenPost (RefreshTokenGrant clientId clientSecret refreshToken);
      EvLog LError
        ("Failed to get valid access token: "
         +:+ errToString
               (newError ("Failed to refresh access token: " +:+ errToString err)))]).
Proof.
  intros Hr. unfold getValidAccessToken, tryCatch, bind, getGlobalSettings. simpl.
  destruct (storedString_read _ _ _ Haccess) as [-> ->].
  destruct (storedString_read _ _ _ Hrefresh) as [-> ->].
  destruct (storedString_read _ _ _ Hid) as [-> ->].
  destruct (storedString_read _ _ _ Hsecret) as [-> ->]. simpl.
  fold (storedExpiresAt s).
  destruct (Z.gtb_spec (storedExpiresAt s - 300) (nowSeconds env)); [lia|].
  unfold refreshAccessToken, tryCatch, postToken. rewrite Hr. reflexivity.
Qed.

End GetValidAccessToken.

(** ** getValidAccessToken *)

Lemma storedExpiresAt_number (s : Settings) (e : Z) :
  s !! "expiresAt" = Some (JNum e) -> storedExpiresAt s = e.
Proof. intros H. unfold storedExpiresAt, prop. rewrite H. reflexivity. Qed.

(** C1, as stated, fails: the token that expires at second 1100 is within
    the margin at second 1000 and is refreshed; the endpoint issues the same
    access token again, and the call returns the stored access token
    although [e - 300 > t] does not hold. *)
Lemma getValidAccessToken_margin_counterexample :
  storedString Sample.configured "accessToken" "A0"
  /\ Sample.configured !! "expiresAt" = Some (JNum 1100)
  /\ StravaService.nowSeconds Sample.reissuing = 1000
  /\ ~ 1100 - 300 > 1000
  /\ completion (StravaService.getValidAccessToken Sample.reissuing Sample.configured)
     = Ok (Some "A0").
Proof.
  repeat split; try reflexivity; discriminate.
Qed.

(** C1, amended. For a record that holds an access token and a refresh
    token, with stored expiry [e] and current time [t] (in seconds):
    [getValidAccessToken] hands out the stored access token from the store,
    with no other interaction than the store read, if and only if
    [e - 300 > t]. Otherwise, with [clientId] and [clientSecret] stored, it
    calls the token endpoint once, with the refresh grant built from the
    stored [clientId], [clientSecret] and [refreshToken], and returns the
    access token of the response, or the absent result when the refresh
    fails; so the token it returns is then the stored one only when the
    endpoint issues that token again. *)
Theorem getValidAccessToken_margin
    (env : Env) (s : Settings) (accessToken refreshToken : string) (e t : Z) :
  storedString s "accessToken" accessToken ->
  storedString s "refreshToken" refreshToken ->
  s !! "expiresAt" = Some (JNum e) ->
  StravaService.nowSeconds env = t ->
  (reusesStoredToken s accessToken (StravaService.getValidAccessToken env s)
   <-> e - 300 > t)
  /\ (~ e - 300 > t ->
      forall clientId clientSecret,
        storedString s "clientId" clientId ->
        storedString s "clientSecret" clientSecret ->
        tokenCalls (trace (StravaService.getValidAccessToken env s))
        = [RefreshTokenGrant clientId clientSecret refreshToken]
        /\ completion (StravaService.getValidAccessToken env s)
           = match tokenEndpoint env
                     (RefreshTokenGrant clientId clientSecret refreshToken) with
             | HttpOk r => Ok (Some (access_token r))
             | HttpErr _ => Ok None
             end)
  /\ (~ e - 300 > t ->
      completion (StravaService.getValidAccessToken env s) = Ok (Some accessToken) ->
      exists clientId clientSecret r,
        storedString s "clientId" clientId
        /\ storedString s "clientSecret" clientSecret
        /\ tokenEndpoint env (RefreshTokenGrant clientId clientSecret refreshToken)
           = HttpOk r
        /\ access_token r = accessToken).
Proof.
  intros Ha Hr He Ht. apply storedExpiresAt_number in He. subst e t.
  destruct (Z_gt_dec (storedExpiresAt s - 300) (StravaService.nowSeconds env))
    as [Hgt|Hle].
  - rewrite (getValidAccessToken_still_valid env s _ _ Ha Hr Hgt).
    split; [|split; intros Hn; contradiction].
    split; [intros _; exact Hgt|]. intros _. repeat split.
  - split; [|split].
    + split; [|intros Hgt; contradiction]. intros (Hres & _ & Htr).
      destruct (lacksString_dec s "clientId") as [Hi|[i Hi]];
        [|destruct (lacksString_dec s "clientSecret") as [Hc|[c Hc]]].
      * rewrite (getValidAccessToken_no_client env s _ _ Ha Hr Hle (or_introl Hi)) in Hres.
        discriminate Hres.
      * rewrite (getValidAccessToken_no_client env s _ _ Ha Hr Hle (or_intror Hc)) in Hres.
        discriminate Hres.
      * destruct (tokenEndpoint env (RefreshTokenGrant i c refreshToken))
          as [r|err] eqn:Hpost.
        -- rewrite (getValidAccessToken_refreshed env s _ _ Ha Hr _ _ Hi Hc Hle r Hpost)
             in Htr. discriminate Htr.
        -- rewrite (getValidAccessToken_refresh_failed env s _ _ Ha Hr _ _ Hi Hc Hle
                      err Hpost) in Htr. discriminate Htr.
    + intros _ clientId clientSecret Hi Hc.
      destruct (tokenEndpoint env (RefreshTokenGrant clientId clientSecret refreshToken))
        as [r|err] eqn:Hpost.
      * rewrite (getValidAccessToken_refreshed env s _ _ Ha Hr _ _ Hi Hc Hle r Hpost).
        split; reflexivity.
      * rewrite (getValidAccessToken_refresh_failed env s _ _ Ha Hr _ _ Hi Hc Hle
                   err Hpost). split; reflexivity.
    + intros _ Hres.
      destruct (lacksString_dec s "clientId") as [Hi|[i Hi]];
        [|destruct (lacksString_dec s "clientSecret") as [Hc|[c Hc]]].
      * rewrite (getValidAccessToken_no_client env s _ _ Ha Hr Hle (or_introl Hi)) in Hres.
        discriminate Hres.
      * rewrite (getValidAccessToken_no_client env s _ _ Ha Hr Hle (or_intror Hc)) in Hres.
        discriminate Hres.
      * destruct (tokenEndpoint env (RefreshTokenGrant i c refreshToken))
          as [r|err] eqn:Hpost.
        -- rewrite (getValidAccessToken_refreshed env s _ _ Ha Hr _ _ Hi Hc Hle r Hpost)
             in Hres. injection Hres as Hres.
           exists i, c, r. repeat split; try assumption; first [apply Hi | apply Hc].
        -- rewrite (getValidAccessToken_refresh_failed env s _ _ Ha Hr _ _ Hi Hc Hle
                      err Hpost) in Hres. discriminate Hres.
Qed.

(** At second 500 the token that expires at second 1100 is handed out; at
    second 1000 it is refreshed and the token of the response is returned,
    or nothing when the endpoint answers 429; it is the stored token when
    the endpoint issues that token again. *)
Lemma getValidAccessToken_margin_witness :
  (reusesStoredToken Sample.configured "A0"
     (StravaService.getValidAccessToken Sample.early Sample.configured)
   <-> 1100 - 300 > 500)
  /\ (tokenCalls (trace (StravaService.getValidAccessToken Sample.granting
                           Sample.configured))
      = [RefreshTokenGrant "12345" "s3cret" "R0"]
      /\ completion (StravaService.getValidAccessToken Sample.granting Sample.configured)
         = match tokenEndpoint Sample.granting
                   (RefreshTokenGrant "12345" "s3cret" "R0") with
           | HttpOk r => Ok (Some (access_token r))
           | HttpErr _ => Ok None
           end)
  /\ (tokenCalls (trace (StravaService.getValidAccessToken Sample.limited
                           Sample.configured))
      = [RefreshTokenGrant "12345" "s3cret" "R0"]
      /\ completion (StravaService.getValidAccessToken Sample.limited Sample.configured)
         = match tokenEndpoint Sample.limited
                   (RefreshTokenGrant "12345" "s3cret" "R0") with
           | HttpOk r => Ok (Some (access_token r))
           | HttpErr _ => Ok None
           end)
  /\ (exists clientId clientSecret r,
        storedString Sample.configured "clientId" clientId
        /\ storedString Sample.configured "clientSecret" clientSecret
        /\ tokenEndpoint Sample.reissuing (RefreshTokenGrant clientId clientSecret "R0")
           = HttpOk r
        /\ access_token r = "A0").
Proof.
  split; [|split; [|split]].
  - apply (getValidAccessToken_margin Sample.early Sample.configured "A0" "R0" 1100 500);
      try (split; [reflexivity | discriminate]); reflexivity.
  - apply (getValidAccessToken_margin Sample.granting Sample.configured
             "A0" "R0" 1100 1000);
      try (split; [reflexivity | discriminate]); try reflexivity.
    lia.
  - apply (getValidAccessToken_margin Sample.limited Sample.configured
             "A0" "R0" 1100 1000);
      try (split; [reflexivity | discriminate]); try reflexivity.
    lia.
  - apply (getValidAccessToken_margin Sample.reissuing Sample.configured
             "A0" "R0" 1100 1000);
      try (split; [reflexivity | discriminate]); try reflexivity.
    lia.
Defined.

(** C2. When the stored record has no access token or no refresh token,
    [getValidAccessToken] returns the absent result and makes no network
    call. *)
Theorem getValidAccessToken_missing_token (env : Env) (s : Settings) :
  lacksString s "accessToken" \/ lacksString s "refreshToken" ->
  completion (StravaService.getValidAccessToken env s) = Ok None
  /\ networkCalls (trace (StravaService.getValidAccessToken env s)) = [].
Proof.
  intros H. rewrite (getValidAccessToken_unauthenticated env s H). split; reflexivity.
Qed.

Lemma getValidAccessToken_missing_token_witness :
  completion (StravaService.getValidAccessToken Sample.granting Sample.noRefreshToken)
  = Ok None
  /\ networkCalls (trace (StravaService.getValidAccessToken Sample.granting
                            Sample.noRefreshToken)) = [].
Proof.
  apply (getValidAccessToken_missing_token Sample.granting Sample.noRefreshToken).
  right. intros v Hv. vm_compute in Hv. discriminate Hv.
Defined.

(** C5, as stated, fails: without client credentials but with a token that
    outlives the margin, the stored access token is returned, not the absent
    result. *)
Lemma getValidAccessToken_no_client_counterexample :
  lacksString Sample.tokensOnly "clientId"
  /\ lacksString Sample.tokensOnly "clientSecret"
  /\ completion (StravaService.getValidAccessToken Sample.early Sample.tokensOnly)
     = Ok (Some "A0").
Proof.
  repeat split; try reflexivity;
    intros v Hv; vm_compute in Hv; discriminate Hv.
Qed.

(** C5, amended. If [clientId] or [clientSecret] is absent from the stored
    record, [getValidAccessToken] makes no network call; it returns the
    absent result unless the stored access token is still valid, in which
    case it returns that token. *)
Theorem getValidAccessToken_without_client (env : Env) (s : Settings) :
  lacksString s "clientId" \/ lacksString s "clientSecret" ->
  networkCalls (trace (StravaService.getValidAccessToken env s)) = []
  /\ (forall stored, stillValid env s stored ->
        completion (StravaService.getValidAccessToken env s) = Ok (Some stored))
  /\ ((forall stored, ~ stillValid env s stored) ->
        completion (StravaService.getValidAccessToken env s) = Ok None).
Proof.
  intros Hclient.
  destruct (lacksString_dec s "accessToken") as [Ha|[a Ha]];
    [|destruct (lacksString_dec s "refreshToken") as [Hr|[r Hr]]].
  - rewrite (getValidAccessToken_unauthenticated env s (or_introl Ha)).
    repeat split; try reflexivity.
    intros stored (r & Hs & _). destruct (storedString_not_lacks _ _ _ Hs Ha).
  - rewrite (getValidAccessToken_unauthenticated env s (or_intror Hr)).
    repeat split; try reflexivity.
    intros stored (r & _ & Hs & _). destruct (storedString_not_lacks _ _ _ Hs Hr).
  - destruct (Z_gt_dec (storedExpiresAt s - 300) (StravaService.nowSeconds env))
      as [Hgt|Hle].
    + rewrite (getValidAccessToken_still_valid env s _ _ Ha Hr Hgt).
      repeat split; try reflexivity.
      * intros stored (r' & [Hs _] & _). destruct Ha as [Ha _].
        rewrite Ha in Hs. injection Hs as ->. reflexivity.
      * intros Hn. destruct (Hn a). exists r. repeat split; try assumption;
          try apply Ha; apply Hr.
    + rewrite (getValidAccessToken_no_client env s _ _ Ha Hr Hle Hclient).
      repeat split; try reflexivity.
      intros stored (r' & _ & _ & Hgt). contradiction.
Qed.

Lemma getValidAccessToken_without_client_witness :
  networkCalls (trace (StravaService.getValidAccessToken Sample.early Sample.tokensOnly)) = []
  /\ (forall stored, stillValid Sample.early Sample.tokensOnly stored ->
        completion (StravaService.getValidAccessToken Sample.early Sample.tokensOnly)
        = Ok (Some stored))
  /\ ((forall stored, ~ stillValid Sample.early Sample.tokensOnly stored) ->
        completion (StravaService.getValidAccessToken Sample.early Sample.tokensOnly)
        = Ok None).
Proof.
  apply (getValidAccessToken_without_client Sample.early Sample.tokensOnly).
  left. intros v Hv. vm_compute in Hv. discriminate Hv.
Defined.

(** C8, as stated, fails: the refresh of this task is rejected while the
    store already holds the fresh, still valid token of the task that won
    the race; nothing is read after the token call and the absent result is
    returned. *)
Lemma getValidAccessToken_no_reread_counterexample :
  tokenEndpoint Sample.raceLost (RefreshTokenGrant "12345" "s3cret" "R0")
  = HttpErr Sample.badRequest
  /\ reads (afterTokenCall
              (trace (StravaService.getValidAccessToken Sample.raceLost Sample.configured)))
     = []
  /\ completion (StravaService.getValidAccessToken Sample.raceLost Sample.configured)
     = Ok None
  /\ stillValid Sample.raceLost
       (finalStore (StravaService.getValidAccessToken Sample.raceLost Sample.configured))
       "A1".
Proof.
  repeat split; try reflexivity.
  exists "R1". repeat split; try reflexivity; discriminate.
Qed.

(** C8, amended. When the refresh call inside [getValidAccessToken] fails,
    the store is not read again: the one read of the call precedes the
    refresh, the failure is logged and the absent result is returned,
    whatever the other tasks have stored meanwhile. *)
Theorem getValidAccessToken_failure_reads_once
    (env : Env) (s : Settings)
    (accessToken refreshToken clientId clientSecret : string) (err : JsError) :
  storedString s "accessToken" accessToken ->
  storedString s "refreshToken" refreshToken ->
  storedString s "clientId" clientId ->
  storedString s "clientSecret" clientSecret ->
  ~ storedExpiresAt s - 300 > StravaService.nowSeconds env ->
  tokenEndpoint env (RefreshTokenGrant clientId clientSecret refreshToken) = HttpErr err ->
  reads (trace (StravaService.getValidAccessToken env s)) = [s]
  /\ reads (afterTokenCall (trace (StravaService.getValidAccessToken env s))) = []
  /\ completion (StravaService.getValidAccessToken env s) = Ok None
  /\ finalStore (StravaService.getValidAccessToken env s) = concurrent env s.
Proof.
  intros Ha Hr Hi Hs Hle Hpost.
  rewrite (getValidAccessToken_refresh_failed env s _ _ Ha Hr _ _ Hi Hs Hle err Hpost).
  repeat split.
Qed.

Lemma getValidAccessToken_failure_reads_once_witness :
  reads (trace (StravaService.getValidAccessToken Sample.raceLost Sample.configured))
  = [Sample.configured]
  /\ reads (afterTokenCall
              (trace (StravaService.getValidAccessToken Sample.raceLost Sample.configured)))
     = []
  /\ completion (StravaService.getValidAccessToken Sample.raceLost Sample.configured)
     = Ok None
  /\ finalStore (StravaService.getValidAccessToken Sample.raceLost Sample.configured)
     = concurrent Sample.raceLost Sample.configured.
Proof.
  apply (getValidAccessToken_failure_reads_once Sample.raceLost Sample.configured
           "A0" "R0" "12345" "s3cret" Sample.badRequest);
    try (split; [reflexivity | discriminate]).
  - vm_compute. intros H. discriminate H.
  - reflexivity.
Defined.

(** Every call of [getValidAccessToken] takes one of three courses: it only
    reads the store, it refreshes and stores the response, or its refresh
    fails and it logs the failure. *)
Lemma getValidAccessToken_cases (env : Env) (s : Settings) :
  (~ refreshSucceeds env s
   /\ exists result,
        StravaService.getValidAccessToken env s = (Ok result, s, [EvGetGlobal s]))
  \/ (refreshSucceeds env s
      /\ exists req r,
           tokenEndpoint env req = HttpOk r
           /\ StravaService.getValidAccessToken env s
              = (Ok (Some (access_token r)), refreshed r s,
                 [EvGetGlobal s; EvTokenPost req; EvSetGlobal (refreshed r s)]))
  \/ (~ refreshSucceeds env s
      /\ exists req err line,
           tokenEndpoint env req = HttpErr err
           /\ StravaService.getValidAccessToken env s
              = (Ok None, concurrent env s,
                 [EvGetGlobal s; EvTokenPost req; EvLog LError line])).
Proof.
  destruct (lacksString_dec s "accessToken") as [Ha|[a Ha]].
  { left. split; [|eexists; apply (getValidAccessToken_unauthenticated env s (or_introl Ha))].
    intros (a & r & i & c & x & Hs & _). exact (storedString_not_lacks _ _ _ Hs Ha). }
  destruct (lacksString_dec s "refreshToken") as [Hr|[r Hr]].
  { left. split; [|eexists; apply (getValidAccessToken_unauthenticated env s (or_intror Hr))].
    intros (a' & r & i & c & x & _ & Hs & _). exact (storedString_not_lacks _ _ _ Hs Hr). }
  destruct (Z_gt_dec (storedExpiresAt s - 300) (StravaService.nowSeconds env))
    as [Hgt|Hle].
  { left. split; [|eexists; apply (getValidAccessToken_still_valid env s _ _ Ha Hr Hgt)].
    intros (a' & r' & i & c & x & _ & _ & _ & _ & Hst & _). exact (Hst Hgt). }
  destruct (lacksString_dec s "clientId") as [Hi|[i Hi]].
  { left. split;
      [|eexists; apply (getValidAccessToken_no_client env s _ _ Ha Hr Hle (or_introl Hi))].
    intros (a' & r' & i & c & x & _ & _ & Hs & _).
    exact (storedString_not_lacks _ _ _ Hs Hi). }
  destruct (lacksString_dec s "clientSecret") as [Hc|[c Hc]].
  { left. split;
      [|eexists; apply (getValidAccessToken_no_client env s _ _ Ha Hr Hle (or_intror Hc))].
    intros (a' & r' & i' & c & x & _ & _ & _ & Hs & _).
    exact (storedString_not_lacks _ _ _ Hs Hc). }
  destruct (tokenEndpoint env (RefreshTokenGrant i c r)) as [x|err] eqn:Hpost.
  - right; left. split.
    + exists a, r, i, c, x. repeat split; try assumption;
        first [apply Ha | apply Hr | apply Hi | apply Hc].
    + exists (RefreshTokenGrant i c r), x. split; [exact Hpost|].
      apply (getValidAccessToken_refreshed env s _ _ Ha Hr _ _ Hi Hc Hle x Hpost).
  - right; right. split.
    + intros (a' & r' & i' & c' & x & [Ha' _] & [Hr' _] & [Hi' _] & [Hc' _] & _ & Hx).
      destruct Hr as [Hr _], Hi as [Hi _], Hc as [Hc _].
      rewrite Hr in Hr'. rewrite Hi in Hi'. rewrite Hc in Hc'.
      injection Hr' as <-. injection Hi' as <-. injection Hc' as <-.
      rewrite Hpost in Hx. discriminate Hx.
    + exists (RefreshTokenGrant i c r), err. eexists. split; [exact Hpost|].
      apply (getValidAccessToken_refresh_failed env s _ _ Ha Hr _ _ Hi Hc Hle err Hpost).
Qed.

(** C10. [getValidAccessToken] writes to the store exactly when its refresh
    succeeds. In every other case (a token that is still valid, a missing
    credential, a failed refresh) it writes nothing, and the store it leaves
    is the store it found, or, when it waited for the token endpoint, what
    the other tasks made of that store meanwhile. *)
Theorem getValidAccessToken_frame (env : Env) (s : Settings) :
  (writes (trace (StravaService.getValidAccessToken env s)) <> []
   <-> refreshSucceeds env s)
  /\ (~ refreshSucceeds env s ->
      writes (trace (StravaService.getValidAccessToken env s)) = []
      /\ finalStore (StravaService.getValidAccessToken env s)
         = match tokenCalls (trace (StravaService.getValidAccessToken env s)) with
           | [] => s
           | _ :: _ => concurrent env s
           end).
Proof.
  destruct (getValidAccessToken_cases env s)
    as [(Hn & result & ->) | [(Hy & req & r & _ & ->) | (Hn & req & err & line & _ & ->)]];
    simpl.
  - split; [|intros _; split; reflexivity].
    split; [intros H; destruct (H eq_refl) | intros H; destruct (Hn H)].
  - split; [|intros Hn; destruct (Hn Hy)].
    split; [intros _; exact Hy | intros _; discriminate].
  - split; [|intros _; split; reflexivity].
    split; [intros H; destruct (H eq_refl) | intros H; destruct (Hn H)].
Qed.

Lemma getValidAccessToken_frame_witness :
  writes (trace (StravaService.getValidAccessToken Sample.limited Sample.configured)) = []
  /\ finalStore (StravaService.getValidAccessToken Sample.limited Sample.configured)
     = match tokenCalls (trace (StravaService.getValidAccessToken Sample.limited
                                  Sample.configured)) with
       | [] => Sample.configured
       | _ :: _ => concurrent Sample.limited Sample.configured
       end.
Proof.
  apply (getValidAccessToken_frame Sample.limited Sample.configured).
  intros (a & r & i & c & x & _ & _ & _ & _ & _ & Hx). discriminate Hx.
Defined.

(** ** Projections of traces and the store view *)

Lemma titles_app (t1 t2 : list Event) : titles (t1 ++ t2) = (titles t1 ++ titles t2)%list.
Proof. induction t1 as [|[] t1 IH]; simpl; rewrite ?IH; reflexivity. Qed.

Lemma storeTrace_app (t1 t2 : list Event) :
  storeTrace (t1 ++ t2) = (storeTrace t1 ++ storeTrace t2)%list.
Proof. apply List.filter_app. Qed.

Lemma writes_storeTrace (tr : list Event) : writes (storeTrace tr) = writes tr.
Proof. induction tr as [|[] tr IH]; simpl; rewrite ?IH; reflexivity. Qed.

Lemma reads_storeTrace (tr : list Event) : reads (storeTrace tr) = reads tr.
Proof. induction tr as [|[] tr IH]; simpl; rewrite ?IH; reflexivity. Qed.

Lemma tokenCalls_storeTrace (tr : list Event) : tokenCalls (storeTrace tr) = tokenCalls tr.
Proof. induction tr as [|[] tr IH]; simpl; rewrite ?IH; reflexivity. Qed.

Lemma titles_storeTrace (tr : list Event) : titles (storeTrace tr) = [].
Proof. induction tr as [|[] tr IH]; simpl; rewrite ?IH; reflexivity. Qed.

Section View.

Context {A B : Type}.

Lemma view_ret (a : A) (s : Settings) : view (ret a s) = (Ok a, s, []).
Proof. reflexivity. Qed.

Lemma view_throw (e : JsError) (s : Settings) : view (@throw A e s) = (Throw e, s, []).
Proof. reflexivity. Qed.

Lemma view_bind (m : M A) (k : A -> M B) (s : Settings) :
  view (bind m k s) =
  match view (m s) with
  | (Ok a, s1, t1) => let '(r, s2, t2) := view (k a s1) in (r, s2, (t1 ++ t2)%list)
  | (Throw e, s1, t1) => (Throw e, s1, t1)
  end.
Proof.
  unfold view, bind, completion, finalStore, trace.
  destruct (m s) as [[[a|e] s1] t1]; simpl; [|reflexivity].
  destruct (k a s1) as [[r s2] t2]; simpl. rewrite storeTrace_app. reflexivity.
Qed.

Lemma view_tryCatch (body : M A) (handler : JsError -> M A) (s : Settings) :
  view (tryCatch body handler s) =
  match view (body s) with
  | (Ok a, s1, t1) => (Ok a, s1, t1)
  | (Throw e, s1, t1) => let '(r, s2, t2) := view (handler e s1) in (r, s2, (t1 ++ t2)%list)
  end.
Proof.
  unfold view, tryCatch, completion, finalStore, trace.
  destruct (body s) as [[[a|e] s1] t1]; simpl; [reflexivity|].
  destruct (handler e s1) as [[r s2] t2]; simpl. rewrite storeTrace_app. reflexivity.
Qed.

End View.

Lemma view_forEach {A : Type} (xs : list A) (body : A -> M unit) :
  (forall x s, view (body x s) = (Ok tt, s, [])) ->
  forall s, view (forEach xs body s) = (Ok tt, s, []).
Proof.
  intros Hbody. induction xs as [|x xs IH]; intros s; cbn [forEach]; [reflexivity|].
  rewrite view_bind, Hbody, IH. reflexivity.
Qed.

Lemma view_emit (ev : Event) (s : Settings) :
  onStore ev = false -> view (emit ev s) = (Ok tt, s, []).
Proof. intros H. unfold view, emit, storeTrace. simpl. rewrite H. reflexivity. Qed.

Lemma view_apiGet {A : Type} (path : string) (params : list (string * Z))
    (token : string) (answer : HttpResult A) (s : Settings) :
  view (apiGet path params token answer s) =
  (match answer with HttpOk a => Ok a | HttpErr e => Throw e end, s, []).
Proof. destruct answer; reflexivity. Qed.

Lemma view_postToken (env : Env) (req : TokenRequest) (s : Settings) :
  view (postToken env req s) =
  (match tokenEndpoint env req with HttpOk r => Ok r | HttpErr e => Throw e end,
   concurrent env s, [EvTokenPost req]).
Proof. unfold view, postToken. destruct (tokenEndpoint env req); reflexivity. Qed.

Lemma view_getGlobalSettings (s : Settings) :
  view (getGlobalSettings s) = (Ok s, s, [EvGetGlobal s]).
Proof. reflexivity. Qed.

Lemma view_setGlobalSettings (o s : Settings) :
  view (setGlobalSettings o s) = (Ok tt, o, [EvSetGlobal o]).
Proof. reflexivity. Qed.

Lemma view_forEach_emit {A : Type} (xs : list A) (ev : A -> Event) (s : Settings) :
  (forall x, onStore (ev x) = false) ->
  view (forEach xs (fun x => emit (ev x)) s) = (Ok tt, s, []).
Proof.
  intros H. apply view_forEach. intros x s'. apply view_emit, H.
Qed.

Create Rewrite HintDb view.
#[local] Hint Rewrite @view_ret @view_throw @view_bind @view_tryCatch
  @view_apiGet view_postToken view_getGlobalSettings view_setGlobalSettings : view.
#[local] Hint Rewrite view_emit using reflexivity : view.
#[local] Hint Rewrite @view_forEach_emit using (intros; reflexivity) : view.

(** Rewrites the store view of a composed computation down to its parts. *)
Ltac view_simpl := repeat (autorewrite with view; cbv beta iota zeta).

Lemma view_exchangeAuthorizationCode (env : Env) (clientId clientSecret authCode : string)
    (s : Settings) :
  view (StravaService.exchangeAuthorizationCode env clientId clientSecret authCode s) =
  (match tokenEndpoint env (AuthorizationCodeGrant clientId clientSecret authCode) with
   | HttpOk r => Ok r
   | HttpErr e =>
       Throw (newError ("Failed to exchange authorization code: " +:+ errToString e))
   end,
   concurrent env s,
   [EvTokenPost (AuthorizationCodeGrant clientId clientSecret authCode)]).
Proof.
  unfold StravaService.exchangeAuthorizationCode. view_simpl.
  destruct (tokenEndpoint env _); view_simpl; reflexivity.
Qed.

Lemma view_refreshAccessToken (env : Env) (clientId clientSecret refreshToken : string)
    (s : Settings) :
  view (StravaService.refreshAccessToken env clientId clientSecret refreshToken s) =
  (match tokenEndpoint env (RefreshTokenGrant clientId clientSecret refreshToken) with
   | HttpOk r => Ok r
   | HttpErr e => Throw (newError ("Failed to refresh access token: " +:+ errToString e))
   end,
   concurrent env s,
   [EvTokenPost (RefreshTokenGrant clientId clientSecret refreshToken)]).
Proof.
  unfold StravaService.refreshAccessToken. view_simpl.
  destruct (tokenEndpoint env _); view_simpl; reflexivity.
Qed.

Lemma view_getAuthenticatedAthlete (env : Env) (accessToken : string) (s : Settings) :
  view (StravaService.getAuthenticatedAthlete env accessToken s) =
  (match athleteEndpoint env accessToken with
   | HttpOk a => Ok a
   | HttpErr e => Throw (newError ("Failed to fetch athlete profile: " +:+ errToString e))
   end, s, []).
Proof.
  unfold StravaService.getAuthenticatedAthlete. view_simpl.
  destruct (athleteEndpoint env _); view_simpl; reflexivity.
Qed.

Section OAuthViews.

Variable env : Env.
Variable actions : list ActionHandle.

Lemma view_validateApiConnection (accessToken : string) (s : Settings) :
  view (StravaOAuth.validateApiConnection env accessToken s) =
  (Ok (match athleteEndpoint env accessToken with HttpOk _ => true | HttpErr _ => false end),
   s, []).
Proof.
  unfold StravaOAuth.validateApiConnection. view_simpl.
  rewrite view_getAuthenticatedAthlete.
  destruct (athleteEndpoint env _); view_simpl; reflexivity.
Qed.

Lemma view_updateDisplay (s : Settings) :
  view (StravaOAuth.updateDisplay env actions s) = (Ok tt, s, [EvGetGlobal s]).
Proof. unfold StravaOAuth.updateDisplay. view_simpl. reflexivity. Qed.

Lemma view_showFeedback (isValid : bool) (s : Settings) :
  view (StravaOAuth.showFeedback actions isValid s) = (Ok tt, s, []).
Proof.
  unfold StravaOAuth.showFeedback. apply view_forEach. intros x s'.
  destruct (isValid && hasShowOk x); [apply view_emit; reflexivity|].
  destruct (negb isValid && hasShowAlert x); [apply view_emit|]; reflexivity.
Qed.

Lemma view_showAlerts (s : Settings) :
  view (StravaOAuth.showAlerts actions s) = (Ok tt, s, []).
Proof.
  unfold StravaOAuth.showAlerts. apply view_forEach. intros x s'.
  destruct (hasShowAlert x); [apply view_emit|]; reflexivity.
Qed.

End OAuthViews.

#[local] Hint Rewrite view_exchangeAuthorizationCode view_refreshAccessToken
  view_getAuthenticatedAthlete view_validateApiConnection view_updateDisplay
  view_showFeedback view_showAlerts : view.

(** ** The setup action on the store *)

Section OAuthStore.

Variable env : Env.
Variable actions : list ActionHandle.

Lemma view_exchangeToken (clientId clientSecret authCode : string) (s : Settings) :
  view (StravaOAuth.exchangeToken env actions clientId clientSecret authCode s) =
  match tokenEndpoint env (AuthorizationCodeGrant clientId clientSecret authCode) with
  | HttpOk r =>
      let written := exchanged clientId clientSecret r (concurrent env s) in
      (Ok tt, written,
       [EvTokenPost (AuthorizationCodeGrant clientId clientSecret authCode);
        EvGetGlobal (concurrent env s); EvSetGlobal written; EvGetGlobal written])
  | HttpErr _ =>
      (Ok tt, concurrent env s,
       [EvTokenPost (AuthorizationCodeGrant clientId clientSecret authCode)])
  end.
Proof.
  unfold StravaOAuth.exchangeToken. view_simpl.
  destruct (tokenEndpoint env _); view_simpl; reflexivity.
Qed.

Lemma view_onSendToPlugin (payload : PluginMessage) (s : Settings) :
  view (StravaOAuth.onSendToPlugin env actions payload s) =
  if String.eqb (msgEvent payload) "exchangeToken"
  then view (StravaOAuth.exchangeToken env actions (msgClientId payload)
               (msgClientSecret payload) (msgAuthCode payload) s)
  else (Ok tt, s, []).
Proof.
  unfold StravaOAuth.onSendToPlugin.
  destruct (String.eqb (msgEvent payload) "exchangeToken"); reflexivity.
Qed.


Lemma view_onDidReceiveSettings (settings s : Settings) :
  view (StravaOAuth.onDidReceiveSettings env actions settings s) =
  let '(s1, t1) := afterSync settings s in
  if codeSubmitted settings then
    if negb (truthy (prop s1 "accessToken")) then
      let '(r, s2, t2) :=
        view (StravaOAuth.exchangeToken env actions
                (stringOr (prop settings "clientId") id "")
                (stringOr (prop settings "clientSecret") id "")
                (stringOr (prop settings "authCode") trim "") s1) in
      (Ok tt, s2, (t1 ++ EvGetGlobal s1 :: t2 ++ [EvGetGlobal s2])%list)
    else (Ok tt, s1, (t1 ++ [EvGetGlobal s1; EvGetGlobal s1])%list)
  else (Ok tt, s1, (t1 ++ [EvGetGlobal s1])%list).
Proof.
  unfold StravaOAuth.onDidReceiveSettings, afterSync, codeSubmitted, synced.
  view_simpl.
  destruct (truthy (prop settings "clientId") || truthy (prop settings "clientSecret"));
    view_simpl;
    (destruct (negb (String.eqb (stringOr (prop settings "authCode") trim "") "")
               && negb (String.eqb (stringOr (prop settings "clientId") id "") "")
               && negb (String.eqb (stringOr (prop settings "clientSecret") id "") ""));
     view_simpl; [|reflexivity]).
  - destruct (negb (truthy (prop (<["clientSecret" := prop settings "clientSecret"]>
                                    (<["clientId" := prop settings "clientId"]> s))
                              "accessToken"))); view_simpl; [|reflexivity].
    rewrite view_exchangeToken. destruct (tokenEndpoint env _); view_simpl; reflexivity.
  - destruct (negb (truthy (prop s "accessToken"))); view_simpl; [|reflexivity].
    rewrite view_exchangeToken. destruct (tokenEndpoint env _); view_simpl; reflexivity.
Qed.

Lemma view_onKeyDown (settings s : Settings) :
  view (StravaOAuth.onKeyDown env actions settings s) =
  match keyDownRefresh s with
  | Some req =>
      match tokenEndpoint env req with
      | HttpOk r =>
          (Ok tt, refreshed r s,
           [EvGetGlobal s; EvTokenPost req; EvSetGlobal (refreshed r s);
            EvGetGlobal (refreshed r s)])
      | HttpErr _ =>
          (Ok tt, concurrent env s,
           [EvGetGlobal s; EvTokenPost req; EvGetGlobal (concurrent env s)])
      end
  | None => (Ok tt, s, [EvGetGlobal s; EvGetGlobal s])
  end.
Proof.
  unfold StravaOAuth.onKeyDown, keyDownRefresh. view_simpl.
  destruct (truthy (prop s "refreshToken")); view_simpl; [|reflexivity].
  cbv beta iota zeta. simpl andb.
  destruct (negb (String.eqb (stringOr (prop s "clientId") id "") "")
            && negb (String.eqb (stringOr (prop s "clientSecret") id "") "")
            && negb (String.eqb (stringOr (prop s "refreshToken") id "") ""));
    view_simpl; [|reflexivity].
  destruct (tokenEndpoint env _); view_simpl; reflexivity.
Qed.

End OAuthStore.

(** What a store view tells about the run it is the view of. *)
Lemma view_facts {A : Type} (out : Result A * Settings * list Event)
    (c : Result A) (f : Settings) (t : list Event) :
  view out = (c, f, t) ->
  completion out = c /\ finalStore out = f
  /\ writes (trace out) = writes t
  /\ reads (trace out) = reads t
  /\ tokenCalls (trace out) = tokenCalls t.
Proof.
  unfold view. intros H. injection H as Hc Hf Ht. subst c f t.
  rewrite writes_storeTrace, reads_storeTrace, tokenCalls_storeTrace. repeat split.
Qed.




Lemma prop_synced_accessToken (settings s : Settings) :
  prop (synced settings s) "accessToken" = prop s "accessToken".
Proof. unfold prop, synced. by simplify_map_eq. Qed.

(** ** The setup action *)

Section OAuthClaims.

Variable env : Env.
Variable actions : list ActionHandle.




End OAuthClaims.


(** C6, as stated, fails: an authorization code submitted with the
    [exchangeToken] message of the property inspector is exchanged although
    a valid access token is stored. *)
Lemma resubmission_counterexample :
  stillValid Sample.early Sample.configured "A0"
  /\ tokenCalls (trace (StravaOAuth.onSendToPlugin Sample.early [Sample.key]
                          Sample.exchangeMessage Sample.configured))
     = [AuthorizationCodeGrant "12345" "s3cret" "c0de"].
Proof.
  split.
  - exists "R0". repeat split; try reflexivity; discriminate.
  - vm_compute. reflexivity.
Qed.

(** C6, amended. When the settings of the setup action change and a truthy
    access token is already stored, [onDidReceiveSettings] makes no call of
    the token endpoint, whatever authorization code the settings carry: it
    checks the stored access token before it calls [exchangeToken]. *)
Theorem settings_resubmission_guard
    (env : Env) (actions : list ActionHandle) (settings s : Settings) :
  truthy (prop s "accessToken") = true ->
  tokenCalls (trace (StravaOAuth.onDidReceiveSettings env actions settings s)) = [].
Proof.
  intros Htok.
  pose proof (view_onDidReceiveSettings env actions settings s) as Hv.
  unfold afterSync in Hv.
  destruct (truthy (prop settings "clientId") || truthy (prop settings "clientSecret"));
    destruct (codeSubmitted settings);
    rewrite ?prop_synced_accessToken, ?Htok in Hv; cbv beta iota zeta in Hv; simpl negb in Hv;
    cbv iota in Hv;
    apply view_facts in Hv; destruct Hv as (_ & _ & _ & _ & ->); reflexivity.
Qed.

Lemma settings_resubmission_guard_witness :
  tokenCalls (trace (StravaOAuth.onDidReceiveSettings Sample.granting [Sample.key]
                       Sample.pastedCode Sample.configured)) = [].
Proof.
  apply (settings_resubmission_guard Sample.granting [Sample.key]
           Sample.pastedCode Sample.configured).
  reflexivity.
Defined.

(** C9. If the token endpoint rejects the exchange, then
    [exchangeAuthorizationCode] fails (it throws), and [exchangeToken], which
    catches the failure, makes no store write: the store it leaves is the
    store as the other tasks left it during the call (the store it found,
    when nothing else ran). *)
Theorem exchange_failure_leaves_store
    (env : Env) (actions : list ActionHandle)
    (clientId clientSecret authCode : string) (s : Settings) (err : JsError) :
  tokenEndpoint env (AuthorizationCodeGrant clientId clientSecret authCode) = HttpErr err ->
  completion (StravaService.exchangeAuthorizationCode env clientId clientSecret authCode s)
  = Throw (newError ("Failed to exchange authorization code: " +:+ errToString err))
  /\ writes (trace (StravaService.exchangeAuthorizationCode env
                      clientId clientSecret authCode s)) = []
  /\ writes (trace (StravaOAuth.exchangeToken env actions
                      clientId clientSecret authCode s)) = []
  /\ finalStore (StravaOAuth.exchangeToken env actions clientId clientSecret authCode s)
     = concurrent env s.
Proof.
  intros Hpost.
  pose proof (view_exchangeAuthorizationCode env clientId clientSecret authCode s) as H1.
  pose proof (view_exchangeToken env actions clientId clientSecret authCode s) as H2.
  rewrite Hpost in H1, H2.
  apply view_facts in H1. destruct H1 as (-> & _ & -> & _).
  apply view_facts in H2. destruct H2 as (_ & -> & -> & _).
  repeat split.
Qed.

Lemma exchange_failure_leaves_store_witness :
  completion (StravaService.exchangeAuthorizationCode Sample.rejecting
                "12345" "s3cret" "c0de" Sample.tokensOnly)
  = Throw (newError ("Failed to exchange authorization code: "
                     +:+ errToString Sample.badRequest))
  /\ writes (trace (StravaService.exchangeAuthorizationCode Sample.rejecting
                      "12345" "s3cret" "c0de" Sample.tokensOnly)) = []
  /\ writes (trace (StravaOAuth.exchangeToken Sample.rejecting [Sample.key]
                      "12345" "s3cret" "c0de" Sample.tokensOnly)) = []
  /\ finalStore (StravaOAuth.exchangeToken Sample.rejecting [Sample.key]
                   "12345" "s3cret" "c0de" Sample.tokensOnly)
     = concurrent Sample.rejecting Sample.tokensOnly.
Proof.
  apply (exchange_failure_leaves_store Sample.rejecting [Sample.key]
           "12345" "s3cret" "c0de" Sample.tokensOnly Sample.badRequest).
  reflexivity.
Defined.

(** ** The display actions *)

Lemma prefix_append (needle hay : string) :
  String.prefix needle hay = true <-> exists rest, hay = needle +:+ rest.
Proof.
  revert hay. induction needle as [|c needle IH]; intros hay; simpl.
  - split; [intros _; exists hay; reflexivity | intros _; destruct hay; reflexivity].
  - destruct hay as [|d hay].
    + split; [discriminate | intros [rest H]; discriminate H].
    + simpl. destruct (Ascii.ascii_dec c d) as [->|Hne].
      * split.
        -- intros H. apply IH in H. destruct H as [rest ->]. exists rest. reflexivity.
        -- intros [rest H]. apply IH. exists rest. injection H as H. exact H.
      * split; [discriminate|]. intros [rest H]. injection H as Hc _.
        destruct (Hne (eq_sym Hc)).
Qed.

Lemma includes_unfold (needle hay : string) :
  includes needle hay =
  if String.prefix needle hay then true
  else match hay with
       | EmptyString => false
       | String _ rest => includes needle rest
       end.
Proof. destruct hay; reflexivity. Qed.

Lemma includes_occursIn (needle hay : string) :
  includes needle hay = true <-> occursIn needle hay.
Proof.
  split.
  - induction hay as [|c hay IH]; rewrite includes_unfold;
      destruct (String.prefix needle _) eqn:Hp;
      try (intros _; apply prefix_append in Hp; destruct Hp as [rest Hp];
           exists "", rest; exact Hp).
    + discriminate.
    + intros H. destruct (IH H) as (before & after & ->).
      exists (String c before), after. reflexivity.
  - intros (before & after & ->). induction before as [|c before IH];
      rewrite includes_unfold.
    + assert (Hp : String.prefix needle (needle +:+ after) = true)
        by (apply prefix_append; exists after; reflexivity).
      change ("" +:+ needle +:+ after) with (needle +:+ after).
      rewrite Hp. reflexivity.
    + destruct (String.prefix needle _); [reflexivity | exact IH].
Qed.

Lemma statusIs429_spec (status : option Z) :
  statusIs429 status = true <-> status = Some 429.
Proof.
  destruct status as [code|]; simpl; [|split; discriminate].
  rewrite Z.eqb_eq. split; congruence.
Qed.

(** The test of the handlers is the property [carries429]. *)
Lemma is429_carries429 (error : JsError) : is429 error = true <-> carries429 error.
Proof.
  unfold is429, carries429.
  rewrite !orb_true_iff, andb_true_iff, !statusIs429_spec, !includes_occursIn.
  split.
  - intros [[[H|H]|[_ H]]|H]; auto.
  - intros [H|[H|[H|H]]]; auto.
    left; right. split; [|exact H].
    destruct H as (before & after & H). rewrite H.
    destruct before; reflexivity.
Qed.

Lemma getValidAccessToken_returns (env : Env) (s : Settings) :
  exists result s1 t1,
    StravaService.getValidAccessToken env s = (Ok result, s1, t1) /\ titles t1 = [].
Proof.
  destruct (getValidAccessToken_cases env s)
    as [(_ & result & ->) | [(_ & req & r & _ & ->) | (_ & req & err & line & _ & ->)]];
    do 3 eexists; split; reflexivity.
Qed.

Section DisplayClaims.

Context {Stats Activity : Type}.
Variable env : Env.
Variable statsEndpoint : string -> Z -> HttpResult Stats.
Variable activitiesEndpoint : string -> Z -> Z -> HttpResult (list Activity).
Variable visible : string -> bool.
Variable yearText : Settings -> Stats -> string.
Variable goalReached : Settings -> Stats -> bool.
Variable matchesFilter : string -> Activity -> bool.
Variable lastText : Settings -> Activity -> string.
Variable actionId : string.
Variable settings : Settings.
Hypothesis Hvisible : visible actionId = true.

(** Splits the run of a body on every test and on every answer of the API. *)
Ltac run_body :=
  repeat match goal with
    | |- context [match ?x with HttpOk _ => _ | HttpErr _ => _ end] => destruct x
    | |- context [if ?b then _ else _] => destruct b
    | |- context [match ?l with [] => _ | _ :: _ => _ end] => destruct l
    | |- context [match ?o with Some _ => _ | None => _ end] => destruct o
    | _ => progress simpl
    end.

(** A body that throws has set no title. *)
Lemma year_body_throws (s s1 : Settings) (t1 : list Event) (error : JsError) :
  StravaYear.body env statsEndpoint visible yearText goalReached actionId settings s
  = (Throw error, s1, t1) ->
  titles t1 = [].
Proof.
  unfold StravaYear.body, bind.
  destruct (getValidAccessToken_returns env s) as (result & s0 & t0 & -> & Ht0).
  unfold setTitleIfVisible, StravaService.getAuthenticatedAthlete,
    StravaService.getAthleteStats, tryCatch, apiGet, emit, ret, throw.
  run_body; intros H; inversion H; subst;
    rewrite ?titles_app, ?Ht0; reflexivity.
Qed.

Lemma last_body_throws (s s1 : Settings) (t1 : list Event) (error : JsError) :
  LastActivity.body env activitiesEndpoint visible matchesFilter lastText actionId settings s
  = (Throw error, s1, t1) ->
  titles t1 = [].
Proof.
  unfold LastActivity.body, bind.
  destruct (getValidAccessToken_returns env s) as (result & s0 & t0 & -> & Ht0).
  unfold setTitleIfVisible, StravaService.getActivities, tryCatch, apiGet, emit, ret, throw.
  run_body; intros H; inversion H; subst;
    rewrite ?titles_app, ?Ht0; reflexivity.
Qed.

Lemma year_onError_titles (error : JsError) (s : Settings) :
  titles (trace (StravaYear.onError visible actionId error s))
  = [if is429 error then titleRateLimit else titleCheckToken].
Proof.
  unfold StravaYear.onError. rewrite Hvisible. destruct (is429 error); reflexivity.
Qed.

Lemma last_onError_titles (error : JsError) (s : Settings) :
  titles (trace (LastActivity.onError visible actionId error s))
  = [if is429 error then titleRateLimit else titleRefreshAuth].
Proof.
  unfold LastActivity.onError, setTitleIfVisible. rewrite Hvisible.
  destruct (is429 error); reflexivity.
Qed.

Lemma tryCatch_throw_trace {A : Type} (body : M A) (handler : JsError -> M A)
    (s s1 : Settings) (t1 : list Event) (error : JsError) :
  body s = (Throw error, s1, t1) ->
  trace (tryCatch body handler s) = (t1 ++ trace (handler error s1))%list.
Proof.
  intros H. unfold tryCatch. rewrite H.
  destruct (handler error s1) as [[r s2] t2]. reflexivity.
Qed.

Lemma year_update_titles (s s1 : Settings) (t1 : list Event) (error : JsError) :
  StravaYear.body env statsEndpoint visible yearText goalReached actionId settings s
  = (Throw error, s1, t1) ->
  titles (trace (StravaYear.updateYearDisplay env statsEndpoint visible yearText
                   goalReached actionId settings s))
  = [if is429 error then titleRateLimit else titleCheckToken].
Proof.
  intros H. unfold StravaYear.updateYearDisplay.
  rewrite (tryCatch_throw_trace _ _ _ _ _ _ H), titles_app,
    (year_body_throws _ _ _ _ H), year_onError_titles. reflexivity.
Qed.

Lemma last_update_titles (s s1 : Settings) (t1 : list Event) (error : JsError) :
  LastActivity.body env activitiesEndpoint visible matchesFilter lastText actionId settings s
  = (Throw error, s1, t1) ->
  titles (trace (LastActivity.updateLastActivityDisplay env activitiesEndpoint visible
                   matchesFilter lastText actionId settings s))
  = [if is429 error then titleRateLimit else titleRefreshAuth].
Proof.
  intros H. unfold LastActivity.updateLastActivityDisplay.
  rewrite (tryCatch_throw_trace _ _ _ _ _ _ H), titles_app,
    (last_body_throws _ _ _ _ H), last_onError_titles. reflexivity.
Qed.

(** With a refresh that fails, both actions show the setup label. *)
Lemma update_titles_refresh_failed (s : Settings)
    (accessToken refreshToken clientId clientSecret : string) (err : JsError) :
  storedString s "accessToken" accessToken ->
  storedString s "refreshToken" refreshToken ->
  storedString s "clientId" clientId ->
  storedString s "clientSecret" clientSecret ->
  ~ storedExpiresAt s - 300 > StravaService.nowSeconds env ->
  tokenEndpoint env (RefreshTokenGrant clientId clientSecret refreshToken) = HttpErr err ->
  titles (trace (StravaYear.updateYearDisplay env statsEndpoint visible yearText
                   goalReached actionId settings s)) = [titleSetupOAuth]
  /\ titles (trace (LastActivity.updateLastActivityDisplay env activitiesEndpoint visible
                      matchesFilter lastText actionId settings s)) = [titleSetupOAuth].
Proof.
  intros Ha Hr Hi Hs Hle Hpost.
  unfold StravaYear.updateYearDisplay, LastActivity.updateLastActivityDisplay,
    StravaYear.body, LastActivity.body, tryCatch, bind.
  rewrite (getValidAccessToken_refresh_failed env s _ _ Ha Hr _ _ Hi Hs Hle err Hpost).
  unfold setTitleIfVisible. rewrite Hvisible. split; reflexivity.
Qed.

End DisplayClaims.

(** C7. The [catch] block of the year action and of the last-activity
    action classifies every error it can be given: it shows the rate-limit
    label exactly when the error carries the status 429, be it as
    [error.response.status], as [error.status], or only as the text "429" in
    the message or in the string form of the error, and its error label
    otherwise. So does the display update for every error that its body
    raises. *)
Theorem rate_limit_classification {Stats Activity : Type}
    (env : Env)
    (statsEndpoint : string -> Z -> HttpResult Stats)
    (activitiesEndpoint : string -> Z -> Z -> HttpResult (list Activity))
    (visible : string -> bool)
    (yearText : Settings -> Stats -> string) (goalReached : Settings -> Stats -> bool)
    (matchesFilter : string -> Activity -> bool)
    (lastText : Settings -> Activity -> string)
    (actionId : string) (settings s : Settings) (error : JsError) :
  visible actionId = true ->
  ((titles (trace (StravaYear.onError visible actionId error s)) = [titleRateLimit]
    <-> carries429 error)
   /\ (~ carries429 error ->
       titles (trace (StravaYear.onError visible actionId error s)) = [titleCheckToken])
   /\ (titles (trace (LastActivity.onError visible actionId error s)) = [titleRateLimit]
       <-> carries429 error)
   /\ (~ carries429 error ->
       titles (trace (LastActivity.onError visible actionId error s))
       = [titleRefreshAuth]))
  /\ (forall s1 t1,
        StravaYear.body env statsEndpoint visible yearText goalReached actionId settings s
        = (Throw error, s1, t1) ->
        (titles (trace (StravaYear.updateYearDisplay env statsEndpoint visible yearText
                          goalReached actionId settings s)) = [titleRateLimit]
         <-> carries429 error)
        /\ (~ carries429 error ->
            titles (trace (StravaYear.updateYearDisplay env statsEndpoint visible yearText
                             goalReached actionId settings s)) = [titleCheckToken]))
  /\ (forall s1 t1,
        LastActivity.body env activitiesEndpoint visible matchesFilter lastText
          actionId settings s = (Throw error, s1, t1) ->
        (titles (trace (LastActivity.updateLastActivityDisplay env activitiesEndpoint
                          visible matchesFilter lastText actionId settings s))
         = [titleRateLimit]
         <-> carries429 error)
        /\ (~ carries429 error ->
            titles (trace (LastActivity.updateLastActivityDisplay env activitiesEndpoint
                             visible matchesFilter lastText actionId settings s))
            = [titleRefreshAuth])).
Proof.
  intros Hvisible.
  assert (Hclass : forall label other : string,
            label <> other ->
            ([if is429 error then label else other] = [label] <-> carries429 error)
            /\ (~ carries429 error -> [if is429 error then label else other] = [other])).
  { intros label other Hne. rewrite <- is429_carries429. destruct (is429 error).
    - split; [split; reflexivity | intros H; destruct (H eq_refl)].
    - split; [|reflexivity]. split; [|discriminate].
      intros H. injection H as H. destruct (Hne (eq_sym H)). }
  assert (Hyear : titleRateLimit <> titleCheckToken) by discriminate.
  assert (Hlast : titleRateLimit <> titleRefreshAuth) by discriminate.
  split; [|split].
  - rewrite (year_onError_titles visible actionId Hvisible error s),
      (last_onError_titles visible actionId Hvisible error s).
    destruct (Hclass _ _ Hyear) as [H1 H2]. destruct (Hclass _ _ Hlast) as [H3 H4].
    repeat split; try apply H1; try apply H3; assumption.
  - intros s1 t1 Hbody.
    rewrite (year_update_titles env statsEndpoint visible yearText goalReached
               actionId settings Hvisible s s1 t1 error Hbody).
    apply (Hclass _ _ Hyear).
  - intros s1 t1 Hbody.
    rewrite (last_update_titles env activitiesEndpoint visible matchesFilter lastText
               actionId settings Hvisible s s1 t1 error Hbody).
    apply (Hclass _ _ Hlast).
Qed.

(** An error that shows 429 in [error.status] alone gets the rate-limit
    label; so does the error that the year action catches when the profile
    endpoint answers 429, which the service has wrapped in a new error that
    carries the status as text only. *)
Lemma rate_limit_classification_witness :
  (titles (trace (StravaYear.onError Sample.shown "year-1" Sample.bareStatus ∅))
   = [titleRateLimit]
   <-> carries429 Sample.bareStatus)
  /\ (titles (trace (StravaYear.updateYearDisplay Sample.apiLimited Sample.noStats
                       Sample.shown Sample.noText Sample.noGoal "year-1" ∅
                       Sample.configured)) = [titleRateLimit]
      <-> carries429
            (newError ("Failed to fetch athlete profile: "
                       +:+ errToString Sample.tooManyRequests))).
Proof.
  split.
  - destruct (rate_limit_classification (Activity := unit) Sample.apiLimited
                Sample.noStats (fun _ _ _ => HttpOk []) Sample.shown Sample.noText
                Sample.noGoal (fun _ _ => false) (fun _ _ => "") "year-1" ∅ ∅
                Sample.bareStatus eq_refl) as [[Hhandler _] _].
    exact Hhandler.
  - destruct (rate_limit_classification (Activity := unit) Sample.apiLimited
                Sample.noStats (fun _ _ _ => HttpOk []) Sample.shown Sample.noText
                Sample.noGoal (fun _ _ => false) (fun _ _ => "") "year-1" ∅
                Sample.configured
                (newError ("Failed to fetch athlete profile: "
                           +:+ errToString Sample.tooManyRequests))
                eq_refl) as [_ [Hyear _]].
    apply (Hyear Sample.configured
             [EvGetGlobal Sample.configured; EvApiGet "/athlete" [] "A0"]).
    reflexivity.
Defined.

(** C4, as stated, fails: the token endpoint answers the refresh with 429,
    and the year action shows the setup label of the unauthenticated state,
    not the rate-limit label. *)
Lemma refresh_429_counterexample :
  tokenEndpoint Sample.limited (RefreshTokenGrant "12345" "s3cret" "R0")
  = HttpErr Sample.tooManyRequests
  /\ errResponseStatus Sample.tooManyRequests = Some 429
  /\ titles (trace (StravaYear.updateYearDisplay Sample.limited Sample.noStats
                      Sample.shown Sample.noText Sample.noGoal "year-1" ∅
                      Sample.configured)) = [titleSetupOAuth]
  /\ titleSetupOAuth <> titleRateLimit.
Proof.
  repeat split; try reflexivity. discriminate.
Qed.

(** C4, amended. When the refresh call made inside [getValidAccessToken]
    fails with an HTTP 429 response, [getValidAccessToken] catches the
    failure and returns the absent result; the consuming action (year,
    last activity) then shows the setup label of the unauthenticated state,
    and neither the rate-limit label nor an error label. *)
Theorem refresh_429_reported_unauthenticated {Stats Activity : Type}
    (env : Env)
    (statsEndpoint : string -> Z -> HttpResult Stats)
    (activitiesEndpoint : string -> Z -> Z -> HttpResult (list Activity))
    (visible : string -> bool)
    (yearText : Settings -> Stats -> string) (goalReached : Settings -> Stats -> bool)
    (matchesFilter : string -> Activity -> bool)
    (lastText : Settings -> Activity -> string)
    (actionId : string) (settings s : Settings)
    (accessToken refreshToken clientId clientSecret : string) (err : JsError) :
  visible actionId = true ->
  storedString s "accessToken" accessToken ->
  storedString s "refreshToken" refreshToken ->
  storedString s "clientId" clientId ->
  storedString s "clientSecret" clientSecret ->
  ~ storedExpiresAt s - 300 > StravaService.nowSeconds env ->
  tokenEndpoint env (RefreshTokenGrant clientId clientSecret refreshToken) = HttpErr err ->
  errResponseStatus err = Some 429 ->
  completion (StravaService.getValidAccessToken env s) = Ok None
  /\ titles (trace (StravaYear.updateYearDisplay env statsEndpoint visible yearText
                      goalReached actionId settings s)) = [titleSetupOAuth]
  /\ titles (trace (LastActivity.updateLastActivityDisplay env activitiesEndpoint visible
                      matchesFilter lastText actionId settings s)) = [titleSetupOAuth].
Proof.
  intros Hvisible Ha Hr Hi Hs Hle Hpost _. split.
  - rewrite (getValidAccessToken_refresh_failed env s _ _ Ha Hr _ _ Hi Hs Hle err Hpost).
    reflexivity.
  - apply (update_titles_refresh_failed env statsEndpoint activitiesEndpoint visible
             yearText goalReached matchesFilter lastText actionId settings Hvisible s
             accessToken refreshToken clientId clientSecret err); assumption.
Qed.

Lemma refresh_429_reported_unauthenticated_witness :
  completion (StravaService.getValidAccessToken Sample.limited Sample.configured) = Ok None
  /\ titles (trace (StravaYear.updateYearDisplay Sample.limited Sample.noStats
                      Sample.shown Sample.noText Sample.noGoal "year-1" ∅
                      Sample.configured)) = [titleSetupOAuth]
  /\ titles (trace (LastActivity.updateLastActivityDisplay (Activity := unit)
                      Sample.limited (fun _ _ _ => HttpOk []) Sample.shown
                      (fun _ _ => false) (fun _ _ => "") "year-1" ∅
                      Sample.configured)) = [titleSetupOAuth].
Proof.
  apply (refresh_429_reported_unauthenticated Sample.limited Sample.noStats
           (fun _ _ _ => HttpOk []) Sample.shown Sample.noText Sample.noGoal
           (fun _ _ => false) (fun _ _ => "") "year-1" ∅ Sample.configured
           "A0" "R0" "12345" "s3cret" Sample.tooManyRequests);
    try (split; [reflexivity | discriminate]); try reflexivity.
  vm_compute. intros H. discriminate H.
Defined.

(** * Further properties of the code *)

(** ** Observations of runs *)

Section Observe.

Variable p : Event -> bool.

Lemma observe_ret {A : Type} (a : A) (s : Settings) : observe p (ret a s) = (Ok a, s, []).
Proof. reflexivity. Qed.

Lemma observe_throw {A : Type} (e : JsError) (s : Settings) :
  observe p (@throw A e s) = (Throw e, s, []).
Proof. reflexivity. Qed.

Lemma observe_emit (ev : Event) (s : Settings) :
  observe p (emit ev s) = (Ok tt, s, if p ev then [ev] else []).
Proof. unfold observe, emit. simpl. destruct (p ev); reflexivity. Qed.

Lemma observe_bind {A B : Type} (m : M A) (k : A -> M B) (s : Settings) :
  observe p (bind m k s) =
  match observe p (m s) with
  | (Ok a, s1, t1) => let '(r, s2, t2) := observe p (k a s1) in (r, s2, (t1 ++ t2)%list)
  | (Throw e, s1, t1) => (Throw e, s1, t1)
  end.
Proof.
  unfold observe, bind, completion, finalStore, trace.
  destruct (m s) as [[[a|e] s1] t1]; simpl; [|reflexivity].
  destruct (k a s1) as [[r s2] t2]; simpl. rewrite List.filter_app. reflexivity.
Qed.

Lemma observe_tryCatch {A : Type} (body : M A) (handler : JsError -> M A) (s : Settings) :
  observe p (tryCatch body handler s) =
  match observe p (body s) with
  | (Ok a, s1, t1) => (Ok a, s1, t1)
  | (Throw e, s1, t1) =>
      let '(r, s2, t2) := observe p (handler e s1) in (r, s2, (t1 ++ t2)%list)
  end.
Proof.
  unfold observe, tryCatch, completion, finalStore, trace.
  destruct (body s) as [[[a|e] s1] t1]; simpl; [reflexivity|].
  destruct (handler e s1) as [[r s2] t2]; simpl. rewrite List.filter_app. reflexivity.
Qed.

Lemma observe_forEach {A : Type} (xs : list A) (body : A -> M unit)
    (seen : A -> list Event) :
  (forall x s, observe p (body x s) = (Ok tt, s, seen x)) ->
  forall s, observe p (forEach xs body s) = (Ok tt, s, List.flat_map seen xs).
Proof.
  intros Hbody. induction xs as [|x xs IH]; intros s; cbn [forEach]; [reflexivity|].
  rewrite observe_bind, Hbody, IH. reflexivity.
Qed.

Lemma observe_getGlobalSettings (s : Settings) :
  observe p (getGlobalSettings s) = (Ok s, s, if p (EvGetGlobal s) then [EvGetGlobal s] else []).
Proof. unfold observe, getGlobalSettings. simpl. destruct (p _); reflexivity. Qed.

Lemma observe_setGlobalSettings (o s : Settings) :
  observe p (setGlobalSettings o s)
  = (Ok tt, o, if p (EvSetGlobal o) then [EvSetGlobal o] else []).
Proof. unfold observe, setGlobalSettings. simpl. destruct (p _); reflexivity. Qed.

Lemma observe_postToken (env : Env) (req : TokenRequest) (s : Settings) :
  observe p (postToken env req s) =
  (match tokenEndpoint env req with HttpOk r => Ok r | HttpErr e => Throw e end,
   concurrent env s, if p (EvTokenPost req) then [EvTokenPost req] else []).
Proof.
  unfold observe, postToken. destruct (tokenEndpoint env req); simpl;
    destruct (p _); reflexivity.
Qed.

Lemma observe_apiGet {A : Type} (path : string) (params : list (string * Z))
    (token : string) (answer : HttpResult A) (s : Settings) :
  observe p (apiGet path params token answer s) =
  (match answer with HttpOk a => Ok a | HttpErr e => Throw e end, s,
   if p (EvApiGet path params token) then [EvApiGet path params token] else []).
Proof. unfold observe, apiGet. destruct answer; simpl; destruct (p _); reflexivity. Qed.

End Observe.

Create Rewrite HintDb observe.
#[local] Hint Rewrite @observe_ret @observe_throw observe_emit @observe_bind
  @observe_tryCatch observe_getGlobalSettings observe_setGlobalSettings
  observe_postToken @observe_apiGet : observe.

(** Rewrites an observation of a composed computation down to its parts. *)
Ltac observe_simpl := repeat (autorewrite with observe; cbv beta iota zeta).

Lemma observe_facts {A : Type} (p : Event -> bool)
    (out : Result A * Settings * list Event)
    (c : Result A) (f : Settings) (t : list Event) :
  observe p out = (c, f, t) ->
  completion out = c /\ finalStore out = f /\ List.filter p (trace out) = t.
Proof. unfold observe. intros H. injection H as Hc Hf Ht. auto. Qed.

Lemma alerts_feedback (tr : list Event) : alerts (List.filter isFeedback tr) = alerts tr.
Proof. induction tr as [|[] tr IH]; simpl; rewrite ?IH; reflexivity. Qed.

Lemma oks_feedback (tr : list Event) : oks (List.filter isFeedback tr) = oks tr.
Proof. induction tr as [|[] tr IH]; simpl; rewrite ?IH; reflexivity. Qed.

Lemma titles_isTitle (tr : list Event) : titles (List.filter isTitle tr) = titles tr.
Proof. induction tr as [|[] tr IH]; simpl; rewrite ?IH; reflexivity. Qed.

Lemma apiTokens_app (t1 t2 : list Event) :
  apiTokens (t1 ++ t2) = (apiTokens t1 ++ apiTokens t2)%list.
Proof. induction t1 as [|[] t1 IH]; simpl; rewrite ?IH; reflexivity. Qed.

(** ** The token service *)

Lemma padStart_twoDigits (n : Z) :
  0 <= n < 60 ->
  StravaService.padStart 2 "0" (pretty n) = twoDigits n
  /\ String.length (twoDigits n) = 2%nat.
Proof.
  intros Hn.
  assert (Hall : List.forallb
                   (fun k => String.eqb
                               (StravaService.padStart 2 "0" (pretty (Z.of_nat k)))
                               (twoDigits (Z.of_nat k))
                             && Nat.eqb (String.length (twoDigits (Z.of_nat k))) 2)
                   (List.seq 0 60) = true) by (vm_compute; reflexivity).
  rewrite List.forallb_forall in Hall.
  specialize (Hall (Z.to_nat n)). rewrite Z2Nat.id in Hall by lia.
  assert (Hin : In (Z.to_nat n) (List.seq 0 60)) by (apply List.in_seq; lia).
  apply Hall in Hin. apply andb_true_iff in Hin. destruct Hin as [H1 H2].
  split; [apply String.eqb_eq, H1 | apply Nat.eqb_eq, H2].
Qed.

(** For a duration of [seconds] whole seconds, not negative and below 2^53,
    [formatTime] shows the hours, minutes and seconds of the duration: they
    add up to it, and minutes and seconds are below 60. While the hours are
    0 they are left out and the text is the minutes as they are, a colon
    and the seconds in two digits; from one hour on it is the hours, the
    minutes in two digits and the seconds in two digits. *)
Theorem formatTime_fields (seconds : Z) :
  0 <= seconds < 9007199254740992 ->
  let h := seconds / 3600 in
  let m := seconds mod 3600 / 60 in
  let c := seconds mod 60 in
  seconds = h * 3600 + m * 60 + c
  /\ 0 <= h /\ 0 <= m < 60 /\ 0 <= c < 60
  /\ StravaService.formatTime seconds
     = (if h =? 0
        then pretty m +:+ ":" +:+ twoDigits c
        else pretty h +:+ ":" +:+ twoDigits m +:+ ":" +:+ twoDigits c)
  /\ String.length (twoDigits m) = 2%nat
  /\ String.length (twoDigits c) = 2%nat.
Proof.
  intros [Hs _] h m c.
  assert (Hm : 0 <= m < 60).
  { subst m. pose proof (Z.mod_pos_bound seconds 3600 ltac:(lia)).
    split; [apply Z.div_pos; lia | apply Z.div_lt_upper_bound; lia]. }
  assert (Hc : 0 <= c < 60) by (subst c; apply Z.mod_pos_bound; lia).
  assert (Hh : 0 <= h) by (subst h; apply Z.div_pos; lia).
  destruct (padStart_twoDigits m Hm) as [Hpm Hlm].
  destruct (padStart_twoDigits c Hc) as [Hpc Hlc].
  repeat split; try lia; try assumption.
  - subst h m c.
    pose proof (Z.div_mod seconds 3600 ltac:(lia)).
    pose proof (Z.div_mod (seconds mod 3600) 60 ltac:(lia)).
    assert (seconds mod 3600 mod 60 = seconds mod 60).
    { symmetry. rewrite (Z.div_mod seconds 3600) at 1 by lia.
      replace (3600 * (seconds / 3600) + seconds mod 3600)
        with (seconds mod 3600 + (60 * (seconds / 3600)) * 60) by lia.
      apply Z.mod_add. lia. }
    lia.
  - unfold StravaService.formatTime.
    rewrite !Z.rem_mod_nonneg by lia. fold h m c. rewrite Hpm, Hpc.
    destruct (Z.eqb_spec h 0) as [->|Hne]; [reflexivity|].
    destruct (Z.gtb_spec h 0); [reflexivity | lia].
Qed.

Lemma formatTime_fields_witness :
  let h := 3725 / 3600 in
  let m := 3725 mod 3600 / 60 in
  let c := 3725 mod 60 in
  3725 = h * 3600 + m * 60 + c
  /\ 0 <= h /\ 0 <= m < 60 /\ 0 <= c < 60
  /\ StravaService.formatTime 3725
     = (if h =? 0
        then pretty m +:+ ":" +:+ twoDigits c
        else pretty h +:+ ":" +:+ twoDigits m +:+ ":" +:+ twoDigits c)
  /\ String.length (twoDigits m) = 2%nat
  /\ String.length (twoDigits c) = 2%nat.
Proof. apply (formatTime_fields 3725). lia. Defined.

(** One call of [getValidAccessToken] calls the token endpoint at most once
    and makes no call of the API. *)
Theorem getValidAccessToken_one_token_call (env : Env) (s : Settings) :
  (List.length (tokenCalls (trace (StravaService.getValidAccessToken env s))) <= 1)%nat
  /\ apiTokens (trace (StravaService.getValidAccessToken env s)) = [].
Proof.
  destruct (getValidAccessToken_cases env s)
    as [(_ & result & ->) | [(_ & req & r & _ & ->) | (_ & req & err & line & _ & ->)]];
    simpl; split; (lia || reflexivity).
Qed.

Lemma storedString_refreshed (r : TokenResponse) (s : Settings) :
  access_token r <> "" -> refresh_token r <> "" ->
  storedString (refreshed r s) "accessToken" (access_token r)
  /\ storedString (refreshed r s) "refreshToken" (refresh_token r)
  /\ storedExpiresAt (refreshed r s) = expires_at r.
Proof.
  intros Ha Hr. unfold storedString, storedExpiresAt, prop, refreshed.
  repeat split; try assumption; by simplify_map_eq.
Qed.

(** After a refresh that [getValidAccessToken] made and stored, and whose
    response carries non-empty tokens and an expiry more than 300 seconds
    away, the next call hands out the token of that response from the store,
    without a call of the token endpoint. *)
Theorem getValidAccessToken_refresh_then_reuse
    (env : Env) (s : Settings) (req : TokenRequest) (r : TokenResponse) :
  In req (tokenCalls (trace (StravaService.getValidAccessToken env s))) ->
  tokenEndpoint env req = HttpOk r ->
  access_token r <> "" -> refresh_token r <> "" ->
  expires_at r - 300 > StravaService.nowSeconds env ->
  let stored := finalStore (StravaService.getValidAccessToken env s) in
  completion (StravaService.getValidAccessToken env s) = Ok (Some (access_token r))
  /\ StravaService.getValidAccessToken env stored
     = (Ok (Some (access_token r)), stored, [EvGetGlobal stored]).
Proof.
  intros Hin Hok Ha Hr Hexp.
  destruct (getValidAccessToken_cases env s)
    as [(_ & result & Heq) | [(_ & req' & r' & Hpost & Heq)
                             | (_ & req' & err & line & Hpost & Heq)]];
    rewrite Heq in *; simpl in Hin |- *; try contradiction;
    destruct Hin as [->|[]]; rewrite Hpost in Hok; [|discriminate Hok].
  injection Hok as ->. split; [reflexivity|].
  destruct (storedString_refreshed r s Ha Hr) as (H1 & H2 & H3).
  apply (getValidAccessToken_still_valid env _ _ _ H1 H2). rewrite H3. exact Hexp.
Qed.

Lemma getValidAccessToken_refresh_then_reuse_witness :
  let stored := finalStore (StravaService.getValidAccessToken Sample.granting
                              Sample.configured) in
  completion (StravaService.getValidAccessToken Sample.granting Sample.configured)
  = Ok (Some "A1")
  /\ StravaService.getValidAccessToken Sample.granting stored
     = (Ok (Some "A1"), stored, [EvGetGlobal stored]).
Proof.
  apply (getValidAccessToken_refresh_then_reuse Sample.granting Sample.configured
           (RefreshTokenGrant "12345" "s3cret" "R0") Sample.fresh);
    try discriminate; try reflexivity.
  left. reflexivity.
Defined.

(** A refresh of [getValidAccessToken] stores the record it read at the
    start with the three token fields replaced: every other field of the
    store is, after the write, what it was at that read, whatever the other
    tasks stored while the call waited for the token endpoint. *)
Theorem getValidAccessToken_refresh_overwrites (env : Env) (s : Settings) (k : string) :
  writes (trace (StravaService.getValidAccessToken env s)) <> [] ->
  k <> "accessToken" -> k <> "refreshToken" -> k <> "expiresAt" ->
  finalStore (StravaService.getValidAccessToken env s) !! k = s !! k.
Proof.
  intros Hw Ha Hr He.
  destruct (getValidAccessToken_cases env s)
    as [(_ & result & Heq) | [(_ & req & r & _ & Heq) | (_ & req & err & line & _ & Heq)]];
    rewrite Heq in *; unfold finalStore, trace in *; cbn [fst snd writes] in *;
    try (destruct (Hw eq_refl)).
  unfold refreshed. rewrite !lookup_insert_ne by congruence. reflexivity.
Qed.

(** The athlete id that another task stores during the refresh is gone
    after the write. *)
Lemma getValidAccessToken_refresh_overwrites_witness :
  finalStore (StravaService.getValidAccessToken Sample.busy Sample.configured)
  !! "athleteId"
  = Sample.configured !! "athleteId".
Proof.
  apply (getValidAccessToken_refresh_overwrites Sample.busy Sample.configured
           "athleteId"); discriminate.
Defined.

(** ** The setup action: exchange, key press, settings *)

Lemma storedString_exchanged (clientId clientSecret : string) (r : TokenResponse)
    (s : Settings) :
  access_token r <> "" -> refresh_token r <> "" ->
  storedString (exchanged clientId clientSecret r s) "accessToken" (access_token r)
  /\ storedString (exchanged clientId clientSecret r s) "refreshToken" (refresh_token r)
  /\ storedExpiresAt (exchanged clientId clientSecret r s) = expires_at r
  /\ exchanged clientId clientSecret r s !! "clientId" = Some (JStr clientId)
  /\ exchanged clientId clientSecret r s !! "clientSecret" = Some (JStr clientSecret).
Proof.
  intros Ha Hr. unfold storedString, storedExpiresAt, prop, exchanged.
  repeat split; try assumption; by simplify_map_eq.
Qed.

Lemma exchangeToken_stores (env : Env) (actions : list ActionHandle)
    (clientId clientSecret authCode : string) (s : Settings) (r : TokenResponse) :
  tokenEndpoint env (AuthorizationCodeGrant clientId clientSecret authCode) = HttpOk r ->
  finalStore (StravaOAuth.exchangeToken env actions clientId clientSecret authCode s)
  = exchanged clientId clientSecret r (concurrent env s).
Proof.
  intros Hpost.
  pose proof (view_exchangeToken env actions clientId clientSecret authCode s) as Hv.
  rewrite Hpost in Hv. apply view_facts in Hv. apply Hv.
Qed.

(** After an exchange that the token endpoint grants, with non-empty tokens
    and an expiry more than 300 seconds away, [getValidAccessToken] hands
    out the access token of the exchange from the store, without a network
    call. *)
Theorem exchange_then_reuse
    (env : Env) (actions : list ActionHandle)
    (clientId clientSecret authCode : string) (s : Settings) (r : TokenResponse) :
  tokenEndpoint env (AuthorizationCodeGrant clientId clientSecret authCode) = HttpOk r ->
  access_token r <> "" -> refresh_token r <> "" ->
  expires_at r - 300 > StravaService.nowSeconds env ->
  let stored :=
    finalStore (StravaOAuth.exchangeToken env actions clientId clientSecret authCode s) in
  StravaService.getValidAccessToken env stored
  = (Ok (Some (access_token r)), stored, [EvGetGlobal stored]).
Proof.
  intros Hpost Ha Hr Hexp stored. subst stored.
  rewrite (exchangeToken_stores env actions _ _ _ s r Hpost).
  destruct (storedString_exchanged clientId clientSecret r (concurrent env s) Ha Hr)
    as (H1 & H2 & H3 & _).
  apply (getValidAccessToken_still_valid env _ _ _ H1 H2). rewrite H3. exact Hexp.
Qed.

Lemma exchange_then_reuse_witness :
  let stored :=
    finalStore (StravaOAuth.exchangeToken Sample.granting [Sample.key]
                  "12345" "s3cret" "c0de" ∅) in
  StravaService.getValidAccessToken Sample.granting stored
  = (Ok (Some "A1"), stored, [EvGetGlobal stored]).
Proof.
  apply (exchange_then_reuse Sample.granting [Sample.key] "12345" "s3cret" "c0de" ∅
           Sample.fresh); try discriminate; reflexivity.
Defined.

(** After an exchange that the token endpoint grants, once the stored token
    is within 300 seconds of its expiry, [getValidAccessToken] asks for a
    refresh with the client id and client secret of the exchange and with
    the refresh token that the exchange returned. *)
Theorem exchange_then_refresh
    (env : Env) (actions : list ActionHandle)
    (clientId clientSecret authCode : string) (s : Settings) (r : TokenResponse) :
  tokenEndpoint env (AuthorizationCodeGrant clientId clientSecret authCode) = HttpOk r ->
  access_token r <> "" -> refresh_token r <> "" ->
  clientId <> "" -> clientSecret <> "" ->
  ~ expires_at r - 300 > StravaService.nowSeconds env ->
  tokenCalls
    (trace (StravaService.getValidAccessToken env
              (finalStore (StravaOAuth.exchangeToken env actions
                             clientId clientSecret authCode s))))
  = [RefreshTokenGrant clientId clientSecret (refresh_token r)].
Proof.
  intros Hpost Ha Hr Hi Hc Hexp.
  rewrite (exchangeToken_stores env actions _ _ _ s r Hpost).
  destruct (storedString_exchanged clientId clientSecret r (concurrent env s) Ha Hr)
    as (H1 & H2 & H3 & H4 & H5).
  rewrite <- H3 in Hexp.
  destruct (tokenEndpoint env (RefreshTokenGrant clientId clientSecret (refresh_token r)))
    as [r'|err] eqn:Hpost'.
  - rewrite (getValidAccessToken_refreshed env _ _ _ H1 H2 _ _ (conj H4 Hi) (conj H5 Hc)
               Hexp r' Hpost'). reflexivity.
  - rewrite (getValidAccessToken_refresh_failed env _ _ _ H1 H2 _ _ (conj H4 Hi)
               (conj H5 Hc) Hexp err Hpost'). reflexivity.
Qed.

Lemma exchange_then_refresh_witness :
  tokenCalls
    (trace (StravaService.getValidAccessToken Sample.late
              (finalStore (StravaOAuth.exchangeToken Sample.late [Sample.key]
                             "12345" "s3cret" "c0de" ∅))))
  = [RefreshTokenGrant "12345" "s3cret" "R1"].
Proof.
  apply (exchange_then_refresh Sample.late [Sample.key] "12345" "s3cret" "c0de" ∅
           Sample.fresh);
    try discriminate; reflexivity.
Defined.

Lemma storedString_key (s : Settings) (k v : string) :
  storedString s k v ->
  truthy (prop s k) = true /\ stringOr (prop s k) id "" = v
  /\ negb (String.eqb v "") = true.
Proof.
  intros [Hk Hv]. unfold prop. rewrite Hk. simpl.
  assert (H : negb (String.eqb v "") = true) by (apply negb_true_iff, String.eqb_neq, Hv).
  auto.
Qed.

Lemma lacksString_key (s : Settings) (k : string) :
  lacksString s k -> stringOr (prop s k) id "" = "".
Proof.
  intros H. unfold prop. destruct (s !! k) as [[]|] eqn:E; simpl; try reflexivity.
  apply (H _ E).
Qed.

Lemma keyDownRefresh_stored (s : Settings) (refreshToken clientId clientSecret : string) :
  storedString s "refreshToken" refreshToken ->
  storedString s "clientId" clientId ->
  storedString s "clientSecret" clientSecret ->
  keyDownRefresh s = Some (RefreshTokenGrant clientId clientSecret refreshToken).
Proof.
  intros Hr Hi Hc. unfold keyDownRefresh.
  destruct (storedString_key _ _ _ Hr) as (-> & -> & ->).
  destruct (storedString_key _ _ _ Hi) as (_ & -> & ->).
  destruct (storedString_key _ _ _ Hc) as (_ & -> & ->). reflexivity.
Qed.

Lemma keyDownRefresh_lacks (s : Settings) :
  lacksString s "refreshToken" \/ lacksString s "clientId" \/ lacksString s "clientSecret" ->
  keyDownRefresh s = None.
Proof.
  intros H. unfold keyDownRefresh.
  destruct H as [H|[H|H]]; rewrite (lacksString_key _ _ H); simpl;
    rewrite ?andb_false_r; reflexivity.
Qed.

(** A key press on the setup action with refresh token, client id and client
    secret stored calls the token endpoint once with the refresh grant of
    these three, whatever the stored expiry and the time, also for a token
    that is still valid; a granted refresh is stored over the record read. *)
Theorem onKeyDown_forces_refresh
    (env : Env) (actions : list ActionHandle) (settings s : Settings)
    (refreshToken clientId clientSecret : string) :
  storedString s "refreshToken" refreshToken ->
  storedString s "clientId" clientId ->
  storedString s "clientSecret" clientSecret ->
  tokenCalls (trace (StravaOAuth.onKeyDown env actions settings s))
  = [RefreshTokenGrant clientId clientSecret refreshToken]
  /\ (forall r,
        tokenEndpoint env (RefreshTokenGrant clientId clientSecret refreshToken) = HttpOk r ->
        finalStore (StravaOAuth.onKeyDown env actions settings s) = refreshed r s).
Proof.
  intros Hr Hi Hc.
  pose proof (view_onKeyDown env actions settings s) as Hv.
  rewrite (keyDownRefresh_stored s _ _ _ Hr Hi Hc) in Hv.
  destruct (tokenEndpoint env _) as [r|err];
    apply view_facts in Hv; destruct Hv as (_ & Hf & _ & _ & Ht);
    rewrite Ht; split; try reflexivity; intros r' Hr'; [|discriminate Hr'].
  injection Hr' as <-. exact Hf.
Qed.

(** The token of [Sample.configured] is still valid at the time of
    [Sample.early], and the key press refreshes it. *)
Lemma onKeyDown_forces_refresh_witness :
  tokenCalls (trace (StravaOAuth.onKeyDown Sample.early [Sample.key] ∅ Sample.configured))
  = [RefreshTokenGrant "12345" "s3cret" "R0"]
  /\ (forall r,
        tokenEndpoint Sample.early (RefreshTokenGrant "12345" "s3cret" "R0") = HttpOk r ->
        finalStore (StravaOAuth.onKeyDown Sample.early [Sample.key] ∅ Sample.configured)
        = refreshed r Sample.configured).
Proof.
  apply (onKeyDown_forces_refresh Sample.early [Sample.key] ∅ Sample.configured
           "R0" "12345" "s3cret");
    (split; [reflexivity | discriminate]).
Defined.

(** A key press on the setup action without a stored refresh token, client
    id or client secret (missing, not a string, or empty) calls no token
    endpoint and writes nothing: the store is left as it was. *)
Theorem onKeyDown_nothing_to_refresh
    (env : Env) (actions : list ActionHandle) (settings s : Settings) :
  lacksString s "refreshToken" \/ lacksString s "clientId" \/ lacksString s "clientSecret" ->
  tokenCalls (trace (StravaOAuth.onKeyDown env actions settings s)) = []
  /\ writes (trace (StravaOAuth.onKeyDown env actions settings s)) = []
  /\ finalStore (StravaOAuth.onKeyDown env actions settings s) = s.
Proof.
  intros H.
  pose proof (view_onKeyDown env actions settings s) as Hv.
  rewrite (keyDownRefresh_lacks s H) in Hv.
  apply view_facts in Hv. destruct Hv as (_ & -> & -> & _ & ->). repeat split.
Qed.

Lemma onKeyDown_nothing_to_refresh_witness :
  tokenCalls (trace (StravaOAuth.onKeyDown Sample.granting [Sample.key] ∅
                       Sample.tokensOnly)) = []
  /\ writes (trace (StravaOAuth.onKeyDown Sample.granting [Sample.key] ∅
                      Sample.tokensOnly)) = []
  /\ finalStore (StravaOAuth.onKeyDown Sample.granting [Sample.key] ∅ Sample.tokensOnly)
     = Sample.tokensOnly.
Proof.
  apply (onKeyDown_nothing_to_refresh Sample.granting [Sample.key] ∅ Sample.tokensOnly).
  right; left. intros v Hv. vm_compute in Hv. discriminate Hv.
Defined.

Section Feedback.

Variable env : Env.
Variable actions : list ActionHandle.

Lemma feedback_forEach_emit {A : Type} (xs : list A) (ev : A -> Event) (s : Settings) :
  (forall x, isFeedback (ev x) = false) ->
  observe isFeedback (forEach xs (fun x => emit (ev x)) s) = (Ok tt, s, []).
Proof.
  intros H.
  rewrite (observe_forEach isFeedback xs (fun x => emit (ev x)) (fun _ => [])).
  - induction xs as [|x xs IH]; [reflexivity | exact IH].
  - intros x s'. rewrite observe_emit, H. reflexivity.
Qed.

Lemma feedback_refreshAccessToken (clientId clientSecret refreshToken : string)
    (s : Settings) :
  observe isFeedback
    (StravaService.refreshAccessToken env clientId clientSecret refreshToken s) =
  (match tokenEndpoint env (RefreshTokenGrant clientId clientSecret refreshToken) with
   | HttpOk r => Ok r
   | HttpErr e => Throw (newError ("Failed to refresh access token: " +:+ errToString e))
   end, concurrent env s, []).
Proof.
  unfold StravaService.refreshAccessToken. observe_simpl.
  destruct (tokenEndpoint env _); observe_simpl; reflexivity.
Qed.

Lemma feedback_validateApiConnection (accessToken : string) (s : Settings) :
  observe isFeedback (StravaOAuth.validateApiConnection env accessToken s) =
  (Ok (match athleteEndpoint env accessToken with HttpOk _ => true | HttpErr _ => false end),
   s, []).
Proof.
  unfold StravaOAuth.validateApiConnection, StravaService.getAuthenticatedAthlete.
  observe_simpl. destruct (athleteEndpoint env _); observe_simpl; reflexivity.
Qed.

Lemma feedback_updateDisplay (s : Settings) :
  observe isFeedback (StravaOAuth.updateDisplay env actions s) = (Ok tt, s, []).
Proof.
  unfold StravaOAuth.updateDisplay. observe_simpl.
  rewrite feedback_forEach_emit by reflexivity. reflexivity.
Qed.

Lemma feedback_showAlerts (s : Settings) :
  observe isFeedback (StravaOAuth.showAlerts actions s) =
  (Ok tt, s,
   List.flat_map (fun a => if hasShowAlert a then [EvShowAlert (handleId a)] else [])
     actions).
Proof.
  unfold StravaOAuth.showAlerts. apply observe_forEach. intros x s'.
  destruct (hasShowAlert x); [rewrite observe_emit|]; reflexivity.
Qed.

Lemma feedback_showFeedback (isValid : bool) (s : Settings) :
  observe isFeedback (StravaOAuth.showFeedback actions isValid s) =
  (Ok tt, s,
   List.flat_map
     (fun a => if isValid && hasShowOk a then [EvShowOk (handleId a)]
               else if negb isValid && hasShowAlert a then [EvShowAlert (handleId a)]
               else [])
     actions).
Proof.
  unfold StravaOAuth.showFeedback. apply observe_forEach. intros x s'.
  destruct (isValid && hasShowOk x); [rewrite observe_emit; reflexivity|].
  destruct (negb isValid && hasShowAlert x); [rewrite observe_emit|]; reflexivity.
Qed.

Lemma alerts_showAlerts :
  alerts (List.flat_map
            (fun a => if hasShowAlert a then [EvShowAlert (handleId a)] else []) actions)
  = List.map handleId (List.filter hasShowAlert actions)
  /\ oks (List.flat_map
            (fun a => if hasShowAlert a then [EvShowAlert (handleId a)] else []) actions)
     = [].
Proof.
  induction actions as [|a rest [IH1 IH2]]; [split; reflexivity|]. simpl in *.
  destruct (hasShowAlert a); simpl; rewrite ?IH1, ?IH2; split; reflexivity.
Qed.

Lemma feedback_valid :
  oks (List.flat_map
         (fun a => if true && hasShowOk a then [EvShowOk (handleId a)]
                   else if negb true && hasShowAlert a then [EvShowAlert (handleId a)]
                   else []) actions)
  = List.map handleId (List.filter hasShowOk actions)
  /\ alerts (List.flat_map
               (fun a => if true && hasShowOk a then [EvShowOk (handleId a)]
                         else if negb true && hasShowAlert a then [EvShowAlert (handleId a)]
                         else []) actions)
     = [].
Proof.
  induction actions as [|a rest [IH1 IH2]]; [split; reflexivity|]. simpl in *.
  destruct (hasShowOk a); simpl; rewrite ?IH1, ?IH2; split; reflexivity.
Qed.

Lemma feedback_invalid :
  oks (List.flat_map
         (fun a => if false && hasShowOk a then [EvShowOk (handleId a)]
                   else if negb false && hasShowAlert a then [EvShowAlert (handleId a)]
                   else []) actions)
  = []
  /\ alerts (List.flat_map
               (fun a => if false && hasShowOk a then [EvShowOk (handleId a)]
                         else if negb false && hasShowAlert a then [EvShowAlert (handleId a)]
                         else []) actions)
     = List.map handleId (List.filter hasShowAlert actions).
Proof.
  induction actions as [|a rest [IH1 IH2]]; [split; reflexivity|]. simpl in *.
  destruct (hasShowAlert a); simpl; rewrite ?IH1, ?IH2; split; reflexivity.
Qed.

Hint Rewrite @feedback_forEach_emit using (intros; reflexivity) : observe.
Hint Rewrite feedback_refreshAccessToken feedback_validateApiConnection
  feedback_updateDisplay feedback_showAlerts feedback_showFeedback : observe.

Lemma feedback_onKeyDown (settings s : Settings) :
  observe isFeedback (StravaOAuth.onKeyDown env actions settings s) =
  match keyDownRefresh s with
  | Some req =>
      match tokenEndpoint env req with
      | HttpOk r =>
          (Ok tt, refreshed r s,
           List.flat_map
             (fun a =>
                if match athleteEndpoint env (access_token r) with
                   | HttpOk _ => true
                   | HttpErr _ => false
                   end && hasShowOk a
                then [EvShowOk (handleId a)]
                else if negb match athleteEndpoint env (access_token r) with
                             | HttpOk _ => true
                             | HttpErr _ => false
                             end && hasShowAlert a
                     then [EvShowAlert (handleId a)]
                     else [])
             actions)
      | HttpErr _ =>
          (Ok tt, concurrent env s,
           List.flat_map
             (fun a => if hasShowAlert a then [EvShowAlert (handleId a)] else [])
             actions)
      end
  | None => (Ok tt, s, [])
  end.
Proof.
  unfold StravaOAuth.onKeyDown, keyDownRefresh. observe_simpl.
  destruct (truthy (prop s "refreshToken")); observe_simpl; [|reflexivity].
  simpl andb.
  destruct (negb (String.eqb (stringOr (prop s "clientId") id "") "")
            && negb (String.eqb (stringOr (prop s "clientSecret") id "") "")
            && negb (String.eqb (stringOr (prop s "refreshToken") id "") ""));
    observe_simpl; [|reflexivity].
  destruct (tokenEndpoint env _); observe_simpl; rewrite ?List.app_nil_r; reflexivity.
Qed.

End Feedback.

(** When the refresh of a key press on the setup action fails, nothing is
    written to the store, every action instance that can show an alert shows
    one, and none shows the OK mark. *)
Theorem onKeyDown_failure_alerts
    (env : Env) (actions : list ActionHandle) (settings s : Settings)
    (refreshToken clientId clientSecret : string) (err : JsError) :
  storedString s "refreshToken" refreshToken ->
  storedString s "clientId" clientId ->
  storedString s "clientSecret" clientSecret ->
  tokenEndpoint env (RefreshTokenGrant clientId clientSecret refreshToken) = HttpErr err ->
  writes (trace (StravaOAuth.onKeyDown env actions settings s)) = []
  /\ alerts (trace (StravaOAuth.onKeyDown env actions settings s))
     = List.map handleId (List.filter hasShowAlert actions)
  /\ oks (trace (StravaOAuth.onKeyDown env actions settings s)) = [].
Proof.
  intros Hr Hi Hc Hpost.
  pose proof (view_onKeyDown env actions settings s) as Hv.
  pose proof (feedback_onKeyDown env actions settings s) as Hf.
  rewrite (keyDownRefresh_stored s _ _ _ Hr Hi Hc), Hpost in Hv, Hf.
  apply view_facts in Hv. destruct Hv as (_ & _ & -> & _).
  apply observe_facts in Hf. destruct Hf as (_ & _ & Hf).
  rewrite <- alerts_feedback, <- oks_feedback, Hf.
  destruct (alerts_showAlerts actions) as [-> ->]. repeat split.
Qed.

Lemma onKeyDown_failure_alerts_witness :
  writes (trace (StravaOAuth.onKeyDown Sample.rejecting [Sample.key] ∅ Sample.configured))
  = []
  /\ alerts (trace (StravaOAuth.onKeyDown Sample.rejecting [Sample.key] ∅
                      Sample.configured))
     = List.map handleId (List.filter hasShowAlert [Sample.key])
  /\ oks (trace (StravaOAuth.onKeyDown Sample.rejecting [Sample.key] ∅
                   Sample.configured)) = [].
Proof.
  apply (onKeyDown_failure_alerts Sample.rejecting [Sample.key] ∅ Sample.configured
           "R0" "12345" "s3cret" Sample.badRequest);
    try (split; [reflexivity | discriminate]); reflexivity.
Defined.

(** When the refresh of a key press is granted, the new tokens are stored
    before the API is tried with the new access token, and the feedback
    follows that trial alone: the OK mark on every action instance that has
    one when the profile call succeeds, an alert on every instance that has
    one when it fails, the tokens staying stored. *)
Theorem onKeyDown_success_feedback
    (env : Env) (actions : list ActionHandle) (settings s : Settings)
    (refreshToken clientId clientSecret : string) (r : TokenResponse) :
  storedString s "refreshToken" refreshToken ->
  storedString s "clientId" clientId ->
  storedString s "clientSecret" clientSecret ->
  tokenEndpoint env (RefreshTokenGrant clientId clientSecret refreshToken) = HttpOk r ->
  finalStore (StravaOAuth.onKeyDown env actions settings s) = refreshed r s
  /\ match athleteEndpoint env (access_token r) with
     | HttpOk _ =>
         oks (trace (StravaOAuth.onKeyDown env actions settings s))
         = List.map handleId (List.filter hasShowOk actions)
         /\ alerts (trace (StravaOAuth.onKeyDown env actions settings s)) = []
     | HttpErr _ =>
         oks (trace (StravaOAuth.onKeyDown env actions settings s)) = []
         /\ alerts (trace (StravaOAuth.onKeyDown env actions settings s))
            = List.map handleId (List.filter hasShowAlert actions)
     end.
Proof.
  intros Hr Hi Hc Hpost.
  pose proof (feedback_onKeyDown env actions settings s) as Hf.
  rewrite (keyDownRefresh_stored s _ _ _ Hr Hi Hc), Hpost in Hf.
  apply observe_facts in Hf. destruct Hf as (_ & -> & Hf).
  split; [reflexivity|].
  rewrite <- alerts_feedback, <- oks_feedback, Hf.
  destruct (athleteEndpoint env (access_token r)).
  - apply feedback_valid.
  - apply feedback_invalid.
Qed.

Lemma onKeyDown_success_feedback_witness :
  finalStore (StravaOAuth.onKeyDown Sample.apiLimited [Sample.key] ∅ Sample.configured)
  = refreshed Sample.fresh Sample.configured
  /\ match athleteEndpoint Sample.apiLimited (access_token Sample.fresh) with
     | HttpOk _ =>
         oks (trace (StravaOAuth.onKeyDown Sample.apiLimited [Sample.key] ∅
                       Sample.configured))
         = List.map handleId (List.filter hasShowOk [Sample.key])
         /\ alerts (trace (StravaOAuth.onKeyDown Sample.apiLimited [Sample.key] ∅
                             Sample.configured)) = []
     | HttpErr _ =>
         oks (trace (StravaOAuth.onKeyDown Sample.apiLimited [Sample.key] ∅
                       Sample.configured)) = []
         /\ alerts (trace (StravaOAuth.onKeyDown Sample.apiLimited [Sample.key] ∅
                             Sample.configured))
            = List.map handleId (List.filter hasShowAlert [Sample.key])
     end.
Proof.
  apply (onKeyDown_success_feedback Sample.apiLimited [Sample.key] ∅ Sample.configured
           "R0" "12345" "s3cret" Sample.fresh);
    try (split; [reflexivity | discriminate]); reflexivity.
Defined.

Lemma forEach_emit_run {A : Type} (xs : list A) (ev : A -> Event) (s : Settings) :
  forEach xs (fun x => emit (ev x)) s = (Ok tt, s, List.map ev xs).
Proof.
  revert s. induction xs as [|x xs IH]; intros s; [reflexivity|].
  cbn [forEach]. unfold bind.
  change (emit (ev x) s) with (Ok tt, s, [ev x]). cbv beta iota.
  rewrite IH. reflexivity.
Qed.

Lemma titles_same_title {A : Type} (xs : list A) (name : A -> string) (title : string) :
  titles (List.map (fun x => EvSetTitle (name x) title) xs) = List.map (fun _ => title) xs.
Proof. induction xs as [|x xs IH]; simpl; rewrite ?IH; reflexivity. Qed.

(** The setup action agrees with the token service on a token that is still
    valid: whenever [getValidAccessToken] would hand out the stored token,
    at a time [Date.now()] that is not negative and for a time and an
    expiry below 2^53, [updateDisplay] shows every action instance the
    connected title, with the whole hours that are left until the expiry. *)
Theorem updateDisplay_connected
    (env : Env) (actions : list ActionHandle) (s : Settings) (stored : string) :
  stillValid env s stored ->
  0 <= dateNow env < 9007199254740992 ->
  storedExpiresAt s < 9007199254740992 ->
  0 <= (storedExpiresAt s - StravaService.nowSeconds env) / 3600
  /\ titles (trace (StravaOAuth.updateDisplay env actions s))
     = List.map
         (fun _ => titleConnected
                     ((storedExpiresAt s - StravaService.nowSeconds env) / 3600))
         actions.
Proof.
  intros (refreshToken & Ha & Hr & Hgt) _ _.
  split; [apply Z.div_pos; lia|].
  unfold StravaOAuth.updateDisplay, bind, getGlobalSettings.
  destruct (storedString_key _ _ _ Ha) as (-> & _).
  destruct (storedString_key _ _ _ Hr) as (-> & _).
  cbv beta iota zeta. simpl andb. cbv iota. fold (storedExpiresAt s).
  destruct (Z.gtb_spec (storedExpiresAt s) (StravaService.nowSeconds env)); [|lia].
  rewrite forEach_emit_run. unfold trace. cbn [snd app titles].
  apply titles_same_title.
Qed.

Lemma updateDisplay_connected_witness :
  0 <= (storedExpiresAt Sample.configured - StravaService.nowSeconds Sample.early) / 3600
  /\ titles (trace (StravaOAuth.updateDisplay Sample.early [Sample.key] Sample.configured))
     = List.map
         (fun _ => titleConnected
                     ((storedExpiresAt Sample.configured
                       - StravaService.nowSeconds Sample.early) / 3600))
         [Sample.key].
Proof.
  apply (updateDisplay_connected Sample.early [Sample.key] Sample.configured "A0").
  - exists "R0". repeat split; try reflexivity; discriminate.
  - simpl. lia.
  - reflexivity.
Defined.

(** A settings change of the setup action that carries a client id but no
    client secret stores the client id and the absent secret: the client
    secret that was stored is gone, no token call is made, and every other
    field of the store is kept. *)
Theorem onDidReceiveSettings_drops_missing_secret
    (env : Env) (actions : list ActionHandle) (settings s : Settings) :
  truthy (prop settings "clientId") = true ->
  settings !! "clientSecret" = None ->
  lacksString (finalStore (StravaOAuth.onDidReceiveSettings env actions settings s))
    "clientSecret"
  /\ finalStore (StravaOAuth.onDidReceiveSettings env actions settings s) !! "clientId"
     = Some (prop settings "clientId")
  /\ tokenCalls (trace (StravaOAuth.onDidReceiveSettings env actions settings s)) = []
  /\ (forall k, k <> "clientId" -> k <> "clientSecret" ->
        finalStore (StravaOAuth.onDidReceiveSettings env actions settings s) !! k
        = s !! k).
Proof.
  intros Hid Hsecret.
  pose proof (view_onDidReceiveSettings env actions settings s) as Hv.
  unfold afterSync in Hv. rewrite Hid in Hv. cbn [orb] in Hv.
  assert (Hcode : codeSubmitted settings = false).
  { unfold codeSubmitted, prop. rewrite Hsecret. simpl. apply andb_false_r. }
  rewrite Hcode in Hv. cbv beta iota zeta in Hv.
  apply view_facts in Hv. destruct Hv as (_ & -> & _ & _ & ->).
  unfold synced, prop. rewrite Hsecret. simpl.
  repeat split.
  - intros v Hv. rewrite lookup_insert_eq in Hv. discriminate Hv.
  - rewrite lookup_insert_ne by discriminate. apply lookup_insert_eq.
  - intros k Hk1 Hk2. rewrite !lookup_insert_ne by congruence. reflexivity.
Qed.

Lemma onDidReceiveSettings_drops_missing_secret_witness :
  lacksString (finalStore (StravaOAuth.onDidReceiveSettings Sample.granting [Sample.key]
                             (<["clientId" := JStr "12345"]> ∅) Sample.configured))
    "clientSecret"
  /\ finalStore (StravaOAuth.onDidReceiveSettings Sample.granting [Sample.key]
                   (<["clientId" := JStr "12345"]> ∅) Sample.configured) !! "clientId"
     = Some (prop (<["clientId" := JStr "12345"]> ∅) "clientId")
  /\ tokenCalls (trace (StravaOAuth.onDidReceiveSettings Sample.granting [Sample.key]
                          (<["clientId" := JStr "12345"]> ∅) Sample.configured)) = []
  /\ (forall k, k <> "clientId" -> k <> "clientSecret" ->
        finalStore (StravaOAuth.onDidReceiveSettings Sample.granting [Sample.key]
                      (<["clientId" := JStr "12345"]> ∅) Sample.configured) !! k
        = Sample.configured !! k).
Proof.
  apply (onDidReceiveSettings_drops_missing_secret Sample.granting [Sample.key]
           (<["clientId" := JStr "12345"]> ∅) Sample.configured); reflexivity.
Defined.

(** A settings change of the setup action that carries client id, client
    secret and an authorization code, while no access token is stored,
    exchanges the code with its surrounding white space removed, in one
    token call; a code of white space only is not exchanged. The white
    space is that of [String.prototype.trim]: the Unicode white space and
    the line terminators, no-break and ideographic spaces included. *)
Theorem onDidReceiveSettings_exchanges_trimmed_code
    (env : Env) (actions : list ActionHandle) (settings s : Settings)
    (clientId clientSecret authCode : string) :
  settings !! "clientId" = Some (JStr clientId) -> clientId <> "" ->
  settings !! "clientSecret" = Some (JStr clientSecret) -> clientSecret <> "" ->
  settings !! "authCode" = Some (JStr authCode) ->
  truthy (prop s "accessToken") = false ->
  tokenCalls (trace (StravaOAuth.onDidReceiveSettings env actions settings s))
  = if String.eqb (trim authCode) ""
    then []
    else [AuthorizationCodeGrant clientId clientSecret (trim authCode)].
Proof.
  intros Hi Hine Hc Hcne Hcode Htok.
  apply String.eqb_neq in Hine, Hcne.
  pose proof (view_onDidReceiveSettings env actions settings s) as Hv.
  assert (Hpi : prop settings "clientId" = JStr clientId)
    by (unfold prop; rewrite Hi; reflexivity).
  assert (Hpc : prop settings "clientSecret" = JStr clientSecret)
    by (unfold prop; rewrite Hc; reflexivity).
  assert (Hpa : prop settings "authCode" = JStr authCode)
    by (unfold prop; rewrite Hcode; reflexivity).
  unfold afterSync, codeSubmitted in Hv. rewrite Hpi, Hpc, Hpa in Hv.
  cbn [truthy stringOr id] in Hv. rewrite Hine, Hcne in Hv.
  cbn [negb orb andb] in Hv. rewrite andb_true_r in Hv.
  destruct (String.eqb (trim authCode) ""); cbn [negb] in Hv; cbv iota in Hv.
  - apply view_facts in Hv. destruct Hv as (_ & _ & _ & _ & ->). reflexivity.
  - rewrite prop_synced_accessToken, Htok in Hv. cbn [negb] in Hv. cbv iota in Hv.
    rewrite view_exchangeToken in Hv.
    destruct (tokenEndpoint env _); cbv beta iota zeta in Hv;
      apply view_facts in Hv; destruct Hv as (_ & _ & _ & _ & ->); reflexivity.
Qed.

Lemma onDidReceiveSettings_exchanges_trimmed_code_witness :
  tokenCalls (trace (StravaOAuth.onDidReceiveSettings Sample.granting [Sample.key]
                       Sample.pastedCopiedCode ∅))
  = [AuthorizationCodeGrant "12345" "s3cret" "c0de"].
Proof.
  apply (onDidReceiveSettings_exchanges_trimmed_code Sample.granting [Sample.key]
           Sample.pastedCopiedCode ∅ "12345" "s3cret" Sample.copiedCode);
    try discriminate; reflexivity.
Defined.

(** ** The display actions: what one update does *)

Lemma append_associative (a b c : string) : (a +:+ b) +:+ c = a +:+ b +:+ c.
Proof.
  induction a as [|x a IH]; [reflexivity|].
  change (String x ((a +:+ b) +:+ c) = String x (a +:+ b +:+ c)).
  rewrite IH. reflexivity.
Qed.

(** The error that the service throws for a failed call keeps the text of
    the HTTP error, and with it a status 429 that this text shows. *)
Lemma is429_wrapped (context : string) (e : JsError) :
  occursIn "429" (errToString e) ->
  is429 (newError (context +:+ errToString e)) = true.
Proof.
  intros (before & after & H). apply is429_carries429.
  right; right; left. simpl. exists (context +:+ before), after.
  rewrite H. symmetry. apply append_associative.
Qed.

Lemma networkCalls_app (t1 t2 : list Event) :
  networkCalls (t1 ++ t2) = (networkCalls t1 ++ networkCalls t2)%list.
Proof. apply List.filter_app. Qed.

Lemma getValidAccessToken_quiet (env : Env) (s : Settings) :
  exists result s1 t1,
    StravaService.getValidAccessToken env s = (Ok result, s1, t1)
    /\ titles t1 = [] /\ apiTokens t1 = []
    /\ (List.length (networkCalls t1) <= 1)%nat.
Proof.
  destruct (getValidAccessToken_cases env s)
    as [(_ & result & ->) | [(_ & req & r & _ & ->) | (_ & req & err & line & _ & ->)]];
    do 3 eexists; (split; [reflexivity|]); simpl; repeat split; lia.
Qed.

Section DisplayRuns.

Context {Stats Activity : Type}.
Variable env : Env.
Variable statsEndpoint : string -> Z -> HttpResult Stats.
Variable activitiesEndpoint : string -> Z -> Z -> HttpResult (list Activity).
Variable weekEndpoint : string -> Z -> Z -> Z -> HttpResult (list Activity).
Variable visible : string -> bool.
Variable yearText : Settings -> Stats -> string.
Variable yearGoal : Settings -> Stats -> bool.
Variable matchesFilter : string -> Activity -> bool.
Variable lastText : Settings -> Activity -> string.
Variable afterTimestamp : Z.
Variable weekText : Settings -> list Activity -> string.
Variable weekGoal : Settings -> list Activity -> bool.
Variable actionId : string.
Variable settings : Settings.
Variable s : Settings.

Let year := StravaYear.updateYearDisplay env statsEndpoint visible yearText yearGoal
              actionId settings s.
Let last := LastActivity.updateLastActivityDisplay env activitiesEndpoint visible
              matchesFilter lastText actionId settings s.
Let week := StravaWeek.updateWeekDisplay env weekEndpoint visible afterTimestamp
              weekText weekGoal actionId settings s.

(** Splits a run on every test and on every answer of the API. *)
Ltac run_all :=
  repeat match goal with
    | |- context [match ?x with HttpOk _ => _ | HttpErr _ => _ end] => destruct x
    | |- context [if ?b then _ else _] => destruct b
    | |- context [match ?l with [] => _ | _ :: _ => _ end] => destruct l
    | |- context [match ?o with Some _ => _ | None => _ end] => destruct o
    | _ => progress simpl
    end.

Ltac open_updates :=
  unfold year, last, week,
    StravaYear.updateYearDisplay, LastActivity.updateLastActivityDisplay,
    StravaWeek.updateWeekDisplay, StravaYear.body, LastActivity.body, StravaWeek.body,
    StravaYear.onError, LastActivity.onError, StravaWeek.onError, bind, tryCatch;
  let result := fresh "result" in
  let s0 := fresh "s0" in
  let t0 := fresh "t0" in
  destruct (getValidAccessToken_quiet env s)
    as (result & s0 & t0 & -> & Htitles & Hapi & Hnet);
  unfold setTitleIfVisible, StravaService.getAuthenticatedAthlete,
    StravaService.getAthleteStats, StravaService.getActivities,
    StravaService.getActivitiesAfter, tryCatch, apiGet, emit, ret, throw.

(** One update of a display action (year, last activity, week) sets exactly
    one title on an action that the host finds, on every path: setup label,
    statistics, empty result, or one of the two error labels; it sets none
    on an action that the host does not find. *)
Theorem update_title_count :
  List.length (titles (trace year)) = (if visible actionId then 1 else 0)%nat
  /\ List.length (titles (trace last)) = (if visible actionId then 1 else 0)%nat
  /\ List.length (titles (trace week)) = (if visible actionId then 1 else 0)%nat.
Proof.
  open_updates.
  repeat split; run_all; rewrite ?titles_app, ?Htitles; reflexivity.
Qed.

(** One update of a display action makes at most three network calls for
    the year and the last-activity action (a token refresh and two API
    calls) and at most two for the week action. *)
Theorem update_network_budget :
  (List.length (networkCalls (trace year)) <= 3)%nat
  /\ (List.length (networkCalls (trace last)) <= 3)%nat
  /\ (List.length (networkCalls (trace week)) <= 2)%nat.
Proof.
  open_updates.
  repeat split; run_all;
    rewrite ?networkCalls_app, ?List.length_app; simpl; lia.
Qed.

(** Every API call of an update carries the token that
    [getValidAccessToken] returned in that update, and this token is not
    empty; so an update without a token makes no API call. *)
Theorem update_api_tokens (token : string) :
  In token (apiTokens (trace year)) \/ In token (apiTokens (trace last))
  \/ In token (apiTokens (trace week)) ->
  completion (StravaService.getValidAccessToken env s) = Ok (Some token) /\ token <> "".
Proof.
  open_updates. unfold completion. cbn [fst].
  destruct result as [tok|]; cbn [truthyStr negb default].
  - destruct (String.eqb_spec tok "") as [->|Hne]; cbn [negb].
    + intros [H|[H|H]]; revert H; run_all; rewrite ?apiTokens_app, ?Hapi;
        simpl; intros H; contradiction.
    + intros [H|[H|H]]; revert H; run_all; rewrite ?apiTokens_app, ?Hapi; simpl;
        intros H;
        repeat match goal with
          | H : _ \/ _ |- _ => destruct H
          | H : False |- _ => destruct H
          end; subst; split; (reflexivity || assumption).
  - intros [H|[H|H]]; revert H; run_all; rewrite ?apiTokens_app, ?Hapi;
      simpl; intros H; contradiction.
Qed.

End DisplayRuns.

Lemma update_api_tokens_witness :
  completion (StravaService.getValidAccessToken Sample.early Sample.configured)
  = Ok (Some "A0")
  /\ "A0" <> "".
Proof.
  apply (update_api_tokens (Activity := unit) Sample.early Sample.noStats
           (fun _ _ _ => HttpOk []) (fun _ _ _ _ => HttpOk []) Sample.shown
           Sample.noText Sample.noGoal (fun _ _ => false) (fun _ _ => "") 0
           (fun _ _ => "") (fun _ _ => false) "year-1" ∅ Sample.configured "A0").
  left. vm_compute. left. reflexivity.
Defined.

Section ApiFailures.

Context {Stats Activity : Type}.
Variable env : Env.
Variable statsEndpoint : string -> Z -> HttpResult Stats.
Variable activitiesEndpoint : string -> Z -> Z -> HttpResult (list Activity).
Variable weekEndpoint : string -> Z -> Z -> Z -> HttpResult (list Activity).
Variable visible : string -> bool.
Variable yearText : Settings -> Stats -> string.
Variable yearGoal : Settings -> Stats -> bool.
Variable matchesFilter : string -> Activity -> bool.
Variable lastText : Settings -> Activity -> string.
Variable afterTimestamp : Z.
Variable weekText : Settings -> list Activity -> string.
Variable weekGoal : Settings -> list Activity -> bool.
Variable actionId : string.
Variable settings : Settings.
Variable s : Settings.
Variable token : string.
Hypothesis Hvisible : visible actionId = true.
Hypothesis Hvalid : stillValid env s token.

Lemma stillValid_run :
  StravaService.getValidAccessToken env s = (Ok (Some token), s, [EvGetGlobal s])
  /\ negb (String.eqb token "") = true.
Proof.
  destruct Hvalid as (refreshToken & Ha & Hr & Hgt). split.
  - apply (getValidAccessToken_still_valid env s _ _ Ha Hr Hgt).
  - apply negb_true_iff, String.eqb_neq, Ha.
Qed.

Ltac open_body :=
  unfold StravaYear.updateYearDisplay, LastActivity.updateLastActivityDisplay,
    StravaWeek.updateWeekDisplay, StravaYear.body, LastActivity.body, StravaWeek.body,
    StravaYear.onError, LastActivity.onError, StravaWeek.onError, bind, tryCatch;
  destruct stillValid_run as [-> Hne];
  cbn [truthyStr default]; rewrite Hne; cbn [negb];
  unfold setTitleIfVisible, StravaService.getAuthenticatedAthlete,
    StravaService.getAthleteStats, StravaService.getActivities,
    StravaService.getActivitiesAfter, tryCatch, apiGet, emit, ret, throw, bind.

(** With a token that is still valid, an HTTP error of any API endpoint whose
    string form shows 429 makes the action show the rate-limit label: the
    service wraps the error in a new one that keeps this text. *)
Theorem api_429_shows_rate_limit (e : JsError) :
  occursIn "429" (errToString e) ->
  (athleteEndpoint env token = HttpErr e ->
   titles (trace (StravaYear.updateYearDisplay env statsEndpoint visible yearText
                    yearGoal actionId settings s)) = [titleRateLimit])
  /\ (forall a, athleteEndpoint env token = HttpOk a ->
        statsEndpoint token (athleteId a) = HttpErr e ->
        titles (trace (StravaYear.updateYearDisplay env statsEndpoint visible yearText
                         yearGoal actionId settings s)) = [titleRateLimit])
  /\ (activitiesEndpoint token 1 1 = HttpErr e ->
      titles (trace (LastActivity.updateLastActivityDisplay env activitiesEndpoint
                       visible matchesFilter lastText actionId settings s))
      = [titleRateLimit])
  /\ (weekEndpoint token 1 200 afterTimestamp = HttpErr e ->
      titles (trace (StravaWeek.updateWeekDisplay env weekEndpoint visible
                       afterTimestamp weekText weekGoal actionId settings s))
      = [titleRateLimit]).
Proof.
  intros H429.
  pose proof (is429_wrapped "Failed to fetch athlete profile: " e H429) as H1.
  pose proof (is429_wrapped "Failed to fetch athlete stats: " e H429) as H2.
  pose proof (is429_wrapped "Failed to fetch activities: " e H429) as H3.
  repeat split.
  - intros Hend. open_body. cbn -[is429]. rewrite Hend. cbn -[is429].
    rewrite H1, Hvisible. reflexivity.
  - intros a Ha Hend. open_body. cbn -[is429]. rewrite Ha. cbn -[is429].
    rewrite Hend. cbn -[is429]. rewrite H2, Hvisible. reflexivity.
  - intros Hend. open_body. cbn -[is429]. rewrite Hend. cbn -[is429].
    rewrite H3, Hvisible. reflexivity.
  - intros Hend. open_body. cbn -[is429]. rewrite Hend. cbn -[is429].
    rewrite H3, Hvisible. reflexivity.
Qed.

(** With a token that is still valid, when the most recent page of
    activities is empty the last-activity action shows "No Activity" after
    that one API call, whatever type filter is set. *)
Theorem last_activity_empty :
  activitiesEndpoint token 1 1 = HttpOk [] ->
  titles (trace (LastActivity.updateLastActivityDisplay env activitiesEndpoint visible
                   matchesFilter lastText actionId settings s)) = [titleNoActivity]
  /\ apiTokens (trace (LastActivity.updateLastActivityDisplay env activitiesEndpoint
                         visible matchesFilter lastText actionId settings s))
     = [token].
Proof.
  intros Hend. open_body. cbn. rewrite Hend. cbn. rewrite Hvisible.
  split; reflexivity.
Qed.

End ApiFailures.

Lemma api_429_shows_rate_limit_witness :
  titles (trace (StravaYear.updateYearDisplay Sample.apiLimited Sample.noStats
                   Sample.shown Sample.noText Sample.noGoal "year-1" ∅
                   Sample.configured)) = [titleRateLimit].
Proof.
  assert (Hvalid : stillValid Sample.apiLimited Sample.configured "A0")
    by (exists "R0"; repeat split; try reflexivity; discriminate).
  assert (H429 : occursIn "429" (errToString Sample.tooManyRequests))
    by (exists "AxiosError: Request failed with status code ", ""; reflexivity).
  destruct (api_429_shows_rate_limit (Activity := unit) Sample.apiLimited Sample.noStats
              (fun _ _ _ => HttpOk []) (fun _ _ _ _ => HttpOk []) Sample.shown
              Sample.noText Sample.noGoal (fun _ _ => false) (fun _ _ => "") 0
              (fun _ _ => "") (fun _ _ => false) "year-1" ∅ Sample.configured "A0"
              eq_refl Hvalid Sample.tooManyRequests H429) as [Hyear _].
  apply Hyear. reflexivity.
Defined.

Lemma last_activity_empty_witness :
  titles (trace (LastActivity.updateLastActivityDisplay (Activity := unit)
                   Sample.early (fun _ _ _ => HttpOk []) Sample.shown
                   (fun _ _ => false) (fun _ _ => "") "last-1"
                   (<["filterType" := JStr "ride"]> ∅) Sample.configured))
  = [titleNoActivity]
  /\ apiTokens (trace (LastActivity.updateLastActivityDisplay (Activity := unit)
                         Sample.early (fun _ _ _ => HttpOk []) Sample.shown
                         (fun _ _ => false) (fun _ _ => "") "last-1"
                         (<["filterType" := JStr "ride"]> ∅) Sample.configured))
     = ["A0"].
Proof.
  apply (last_activity_empty (Activity := unit) Sample.early (fun _ _ _ => HttpOk [])
           Sample.shown (fun _ _ => false) (fun _ _ => "") "last-1"
           (<["filterType" := JStr "ride"]> ∅) Sample.configured "A0" eq_refl).
  - exists "R0". repeat split; try reflexivity; discriminate.
  - reflexivity.
Defined.

(** ** The life cycle of the display actions *)

(** Going back [daysFromMonday] days from a day of the week ([getDay()]: 0
    for Sunday to 6 for Saturday) reaches a Monday, within the last seven
    days. *)
Theorem daysFromMonday_reaches_monday (dayOfWeek : Z) :
  0 <= dayOfWeek <= 6 ->
  0 <= StravaWeek.daysFromMonday dayOfWeek <= 6
  /\ (dayOfWeek - StravaWeek.daysFromMonday dayOfWeek) mod 7 = 1.
Proof.
  intros H. unfold StravaWeek.daysFromMonday.
  destruct (Z.eqb_spec dayOfWeek 0) as [->|Hne]; [split; [lia|reflexivity]|].
  split; [lia|]. replace (dayOfWeek - (dayOfWeek - 1)) with 1 by lia. reflexivity.
Qed.

Lemma daysFromMonday_reaches_monday_witness :
  0 <= StravaWeek.daysFromMonday 0 <= 6
  /\ (0 - StravaWeek.daysFromMonday 0) mod 7 = 1.
Proof. apply (daysFromMonday_reaches_monday 0). lia. Defined.

Lemma last_cons {A : Type} (x d : A) (l : list A) : List.last (x :: l) d = List.last l x.
Proof.
  revert x d. induction l as [|y l IH]; intros x d; [reflexivity|].
  change (List.last (x :: y :: l) d) with (List.last (y :: l) d).
  rewrite !IH. reflexivity.
Qed.

Section Lifecycle.

Context {Stats Activity : Type}.
Variable env : Env.
Variable statsEndpoint : string -> Z -> HttpResult Stats.
Variable weekEndpoint : string -> Z -> Z -> Z -> HttpResult (list Activity).
Variable visible : string -> bool.
Variable yearText : Settings -> Stats -> string.
Variable yearGoal : Settings -> Stats -> bool.
Variable afterTimestamp : Z.
Variable weekText : Settings -> list Activity -> string.
Variable weekGoal : Settings -> list Activity -> bool.

Ltac run_update :=
  unfold StravaYear.updateYearDisplay, StravaWeek.updateWeekDisplay,
    StravaYear.body, StravaWeek.body, StravaYear.onError, StravaWeek.onError,
    bind, tryCatch;
  match goal with
  | |- context [StravaService.getValidAccessToken ?e ?s] =>
      destruct (getValidAccessToken_quiet e s) as (? & ? & ? & -> & _)
  end;
  unfold setTitleIfVisible, StravaService.getAuthenticatedAthlete,
    StravaService.getAthleteStats, StravaService.getActivitiesAfter,
    tryCatch, apiGet, emit, ret, throw;
  repeat match goal with
    | |- context [match ?x with HttpOk _ => _ | HttpErr _ => _ end] => destruct x
    | |- context [if ?b then _ else _] => destruct b
    | _ => progress simpl
    end;
  do 2 eexists; reflexivity.

(** An update never rejects: its [catch] block handles every error. *)
Lemma updateYearDisplay_completes (actionId : string) (settings s : Settings) :
  exists s' tr,
    StravaYear.updateYearDisplay env statsEndpoint visible yearText yearGoal
      actionId settings s = (Ok tt, s', tr).
Proof. run_update. Qed.

Lemma updateWeekDisplay_completes (actionId : string) (settings s : Settings) :
  exists s' tr,
    StravaWeek.updateWeekDisplay env weekEndpoint visible afterTimestamp weekText
      weekGoal actionId settings s = (Ok tt, s', tr).
Proof. run_update. Qed.

(** *** The year action: one field for all buttons *)

Lemma year_onWillAppear_step (a : string) (settings : Settings)
    (st : option nat * Timers) (last : option (string * Settings)) (s : Settings) :
  yearInvariant st last ->
  exists st' s' tr,
    StravaYear.onWillAppear env statsEndpoint visible yearText yearGoal a settings st s
    = (Ok st', s', tr)
    /\ yearInvariant st' (Some (a, settings)).
Proof.
  intros Hinv. unfold StravaYear.onWillAppear, bind.
  destruct (updateYearDisplay_completes a settings s) as (s' & tr & ->).
  unfold setInterval, ret. cbv beta iota zeta.
  do 3 eexists. split; [reflexivity|].
  destruct st as [field timers]. destruct last as [[a0 set0]|]; simpl in *.
  - destruct Hinv as (timer & -> & Hrun). eexists. split; [reflexivity|].
    unfold clearInterval. cbn [running nextInterval]. rewrite Hrun. simpl.
    rewrite Nat.eqb_refl. reflexivity.
  - destruct Hinv as (-> & Hrun). eexists. split; [reflexivity|].
    rewrite Hrun. reflexivity.
Qed.

Lemma year_onWillDisappear_step (st : option nat * Timers)
    (last : option (string * Settings)) :
  yearInvariant st last -> yearInvariant (StravaYear.onWillDisappear st) None.
Proof.
  intros Hinv. unfold StravaYear.onWillDisappear.
  destruct st as [field timers]. destruct last as [[a0 set0]|]; simpl in *.
  - destruct Hinv as (timer & -> & Hrun). unfold clearInterval.
    cbn [fst snd running nextInterval]. rewrite Hrun. simpl.
    rewrite Nat.eqb_refl. split; reflexivity.
  - destruct Hinv as (-> & Hrun). split; [reflexivity | exact Hrun].
Qed.

Lemma year_run_invariant (history : list ButtonEvent) :
  forall (st : option nat * Timers) (before : ButtonEvent) (s : Settings),
    yearInvariant st (asLast before) ->
    exists st' s' tr,
      runEvents
        (StravaYear.onWillAppear env statsEndpoint visible yearText yearGoal)
        (fun _ => StravaYear.onWillDisappear) history st s = (Ok st', s', tr)
      /\ yearInvariant st' (asLast (List.last history before)).
Proof.
  induction history as [|ev rest IH]; intros st before s Hinv.
  - do 3 eexists. split; [reflexivity | exact Hinv].
  - rewrite last_cons. destruct ev as [a settings|a]; cbn [runEvents].
    + destruct (year_onWillAppear_step a settings st _ s Hinv)
        as (st1 & s1 & t1 & Hstep & Hinv1).
      destruct (IH st1 (WillAppear a settings) s1 Hinv1) as (st2 & s2 & t2 & Hrun & Hinv2).
      unfold bind. rewrite Hstep, Hrun. do 3 eexists. split; [reflexivity | exact Hinv2].
    + apply (IH _ (WillDisappear a)). apply (year_onWillDisappear_step st _ Hinv).
Qed.

End Lifecycle.

(** The year action keeps one timer field for all its buttons. After any
    history of appearances and disappearances of buttons of the year action
    (handlers running one after the other),
    at most one timer runs: the timer of the button that appeared last, when
    the last event is an appearance, and none when the last event is a
    disappearance of whichever button. *)
Theorem year_single_timer {Stats : Type}
    (env : Env) (statsEndpoint : string -> Z -> HttpResult Stats)
    (visible : string -> bool)
    (yearText : Settings -> Stats -> string) (yearGoal : Settings -> Stats -> bool)
    (history : list ButtonEvent) (s : Settings) :
  exists st s' tr,
    runEvents (StravaYear.onWillAppear env statsEndpoint visible yearText yearGoal)
      (fun _ => StravaYear.onWillDisappear) history (None, noTimers) s
    = (Ok st, s', tr)
    /\ List.map (fun i => (intervalAction i, intervalSettings i)) (running (snd st))
       = match lastAppeared history with
         | Some shown => [shown]
         | None => []
         end.
Proof.
  destruct (year_run_invariant env statsEndpoint visible yearText yearGoal history
              (None, noTimers) (WillDisappear "") s) as (st & s' & tr & Hrun & Hinv).
  { split; reflexivity. }
  exists st, s', tr. split; [exact Hrun|].
  unfold lastAppeared. unfold yearInvariant, asLast in Hinv.
  destruct (List.last history (WillDisappear "")) as [a settings|a].
  - destruct Hinv as (timer & _ & ->). reflexivity.
  - destruct Hinv as (_ & ->). reflexivity.
Qed.

(** *** The week action: one timer for each button *)

Lemma intervalsOf_app (a : string) (l1 l2 : list Interval) :
  intervalsOf a (l1 ++ l2) = (intervalsOf a l1 ++ intervalsOf a l2)%list.
Proof. apply List.filter_app. Qed.

Lemma intervalsOf_single (b a : string) (timer : nat) (settings : Settings) :
  intervalsOf b [mkInterval timer a settings]
  = if String.eqb a b then [mkInterval timer a settings] else [].
Proof. unfold intervalsOf. simpl. destruct (String.eqb a b); reflexivity. Qed.

Lemma intervalsOf_cleared (a : string) (timer : nat) (l : list Interval) :
  intervalsOf a (List.filter (fun i => negb (intervalId i =? timer)%nat) l)
  = List.filter (fun i => negb (intervalId i =? timer)%nat) (intervalsOf a l).
Proof.
  unfold intervalsOf. induction l as [|i l IH]; [reflexivity|]. simpl.
  destruct (negb (intervalId i =? timer)%nat) eqn:E1;
    destruct (String.eqb (intervalAction i) a) eqn:E2; simpl;
    rewrite ?E1, ?E2, IH; reflexivity.
Qed.

(** Stopping the timer of the action [a] leaves the timers of the others. *)
Lemma week_clear (st : gmap string nat * Timers) (shown : string -> option Settings)
    (a : string) (timer : nat) :
  weekInvariant st shown ->
  fst st !! a = Some timer ->
  forall b,
    intervalsOf b (running (clearInterval timer (snd st)))
    = if String.eqb a b then [] else intervalsOf b (running (snd st)).
Proof.
  intros (H1 & H2 & H3) Ha b. unfold clearInterval. cbn [running].
  rewrite intervalsOf_cleared. specialize (H1 b).
  destruct (String.eqb_spec a b) as [<-|Hne].
  - destruct (shown a) as [settings|].
    + destruct H1 as (t & Ht & ->). rewrite Ha in Ht. injection Ht as <-.
      simpl. rewrite Nat.eqb_refl. reflexivity.
    + destruct H1 as (_ & ->). reflexivity.
  - destruct (shown b) as [settings|].
    + destruct H1 as (t & Ht & ->). simpl.
      destruct (Nat.eqb_spec t timer) as [->|_]; [|reflexivity].
      destruct (Hne (H3 a b timer Ha Ht)).
    + destruct H1 as (_ & ->). reflexivity.
Qed.

Lemma week_unknown (st : gmap string nat * Timers) (shown : string -> option Settings)
    (a : string) :
  weekInvariant st shown -> fst st !! a = None ->
  shown a = None /\ intervalsOf a (running (snd st)) = [].
Proof.
  intros (H1 & _) Ha. specialize (H1 a). destruct (shown a) as [settings|].
  - destruct H1 as (t & Ht & _). rewrite Ha in Ht. discriminate Ht.
  - split; [reflexivity | apply H1].
Qed.

Section WeekLifecycle.

Context {Activity : Type}.
Variable env : Env.
Variable weekEndpoint : string -> Z -> Z -> Z -> HttpResult (list Activity).
Variable visible : string -> bool.
Variable afterTimestamp : Z.
Variable weekText : Settings -> list Activity -> string.
Variable weekGoal : Settings -> list Activity -> bool.

Lemma week_onWillAppear_step (a : string) (settings : Settings)
    (st : gmap string nat * Timers) (shown : string -> option Settings) (s : Settings) :
  weekInvariant st shown ->
  exists st' s' tr,
    StravaWeek.onWillAppear env weekEndpoint visible afterTimestamp weekText weekGoal
      a settings st s = (Ok st', s', tr)
    /\ weekInvariant st'
         (fun b => if String.eqb a b then Some settings else shown b).
Proof.
  intros Hinv. unfold StravaWeek.onWillAppear, bind.
  destruct (updateWeekDisplay_completes env weekEndpoint visible
              afterTimestamp weekText weekGoal a settings s) as (s' & tr & ->).
  unfold setInterval, ret. cbv beta iota zeta.
  do 3 eexists. split; [reflexivity|].
  destruct st as [m timers]. cbn [fst snd] in *.
  assert (Hrest : forall b,
            intervalsOf b
              (running match m !! a with
                       | Some existing => clearInterval existing timers
                       | None => timers
                       end)
            = if String.eqb a b then [] else intervalsOf b (running timers)).
  { intros b. destruct (m !! a) as [t|] eqn:Ha.
    - apply (week_clear (m, timers) shown a t Hinv Ha b).
    - destruct (String.eqb_spec a b) as [<-|_]; [|reflexivity].
      apply (week_unknown (m, timers) shown a Hinv Ha). }
  assert (Hnext : nextInterval match m !! a with
                               | Some existing => clearInterval existing timers
                               | None => timers
                               end = nextInterval timers)
    by (destruct (m !! a); reflexivity).
  destruct Hinv as (H1 & H2 & H3). cbn [fst snd] in *.
  split; [|split]; cbn [fst snd running nextInterval].
  - intros b. rewrite intervalsOf_app, Hrest, Hnext, intervalsOf_single.
    destruct (String.eqb_spec a b) as [<-|Hne].
    + exists (nextInterval timers). rewrite lookup_insert_eq. split; reflexivity.
    + rewrite lookup_insert_ne by exact Hne. rewrite List.app_nil_r. apply H1.
  - intros b t. rewrite Hnext. destruct (decide (a = b)) as [<-|Hne].
    + rewrite lookup_insert_eq. intros Ht. injection Ht as <-. lia.
    + rewrite lookup_insert_ne by exact Hne. intros Ht. specialize (H2 b t Ht). lia.
  - intros b c t. rewrite Hnext.
    destruct (decide (a = b)) as [<-|Hb]; destruct (decide (a = c)) as [<-|Hc];
      rewrite ?lookup_insert_eq, ?lookup_insert_ne by assumption; intros Hb' Hc'.
    + reflexivity.
    + injection Hb' as <-. specialize (H2 c _ Hc'). lia.
    + injection Hc' as <-. specialize (H2 b _ Hb'). lia.
    + apply (H3 b c t Hb' Hc').
Qed.

Lemma week_onWillDisappear_step (a : string) (st : gmap string nat * Timers)
    (shown : string -> option Settings) :
  weekInvariant st shown ->
  weekInvariant (StravaWeek.onWillDisappear a st)
    (fun b => if String.eqb a b then None else shown b).
Proof.
  intros Hinv. unfold StravaWeek.onWillDisappear.
  destruct st as [m timers]. cbn [fst snd] in *.
  destruct (m !! a) as [t|] eqn:Ha.
  - pose proof (week_clear (m, timers) shown a t Hinv Ha) as Hrest.
    destruct Hinv as (H1 & H2 & H3). cbn [fst snd] in *.
    split; [|split]; cbn [fst snd].
    + intros b. rewrite Hrest.
      destruct (String.eqb_spec a b) as [<-|Hne].
      * rewrite lookup_delete_eq. split; reflexivity.
      * rewrite lookup_delete_ne by exact Hne. apply H1.
    + intros b t' Hb. destruct (decide (a = b)) as [<-|Hne].
      * rewrite lookup_delete_eq in Hb. discriminate Hb.
      * rewrite lookup_delete_ne in Hb by exact Hne. apply (H2 b t' Hb).
    + intros b c t' Hb Hc.
      destruct (decide (a = b)) as [<-|Hnb]; [rewrite lookup_delete_eq in Hb; discriminate Hb|].
      destruct (decide (a = c)) as [<-|Hnc]; [rewrite lookup_delete_eq in Hc; discriminate Hc|].
      rewrite lookup_delete_ne in Hb, Hc by assumption. apply (H3 b c t' Hb Hc).
  - destruct (week_unknown (m, timers) shown a Hinv Ha) as (Hs & Hl).
    destruct Hinv as (H1 & H2 & H3). split; [|split]; try assumption.
    intros b. destruct (String.eqb_spec a b) as [<-|_]; [|apply H1].
    split; [exact Ha | exact Hl].
Qed.

Lemma week_run_invariant (history : list ButtonEvent) :
  forall (st : gmap string nat * Timers) (shown : string -> option Settings)
         (s : Settings),
    weekInvariant st shown ->
    exists st' s' tr,
      runEvents
        (StravaWeek.onWillAppear env weekEndpoint visible afterTimestamp weekText weekGoal)
        StravaWeek.onWillDisappear history st s = (Ok st', s', tr)
      /\ weekInvariant st' (fun a => shownWith history a (shown a)).
Proof.
  induction history as [|ev rest IH]; intros st shown s Hinv.
  - do 3 eexists. split; [reflexivity | exact Hinv].
  - destruct ev as [a settings|a]; cbn [runEvents shownWith].
    + destruct (week_onWillAppear_step a settings st shown s Hinv)
        as (st1 & s1 & t1 & Hstep & Hinv1).
      destruct (IH st1 _ s1 Hinv1) as (st2 & s2 & t2 & Hrun & Hinv2).
      unfold bind. rewrite Hstep, Hrun. do 3 eexists. split; [reflexivity | exact Hinv2].
    + apply (IH _ _ s (week_onWillDisappear_step a st shown Hinv)).
Qed.

End WeekLifecycle.

(** The week action keeps a timer for each of its buttons. After any history
    of appearances and disappearances (handlers running one after the
    other), each button whose last event is an
    appearance has exactly one running timer, which updates it with the
    settings of that appearance; a button that disappeared last, or never
    appeared, has none. *)
Theorem week_timer_per_action {Activity : Type}
    (env : Env) (weekEndpoint : string -> Z -> Z -> Z -> HttpResult (list Activity))
    (visible : string -> bool) (afterTimestamp : Z)
    (weekText : Settings -> list Activity -> string)
    (weekGoal : Settings -> list Activity -> bool)
    (history : list ButtonEvent) (s : Settings) :
  exists st s' tr,
    runEvents
      (StravaWeek.onWillAppear env weekEndpoint visible afterTimestamp weekText weekGoal)
      StravaWeek.onWillDisappear history (∅, noTimers) s = (Ok st, s', tr)
    /\ forall a,
         timersOf a (snd st)
         = match shownWith history a None with
           | Some settings => [settings]
           | None => []
           end.
Proof.
  destruct (week_run_invariant env weekEndpoint visible afterTimestamp weekText weekGoal
              history (∅, noTimers) (fun _ => None) s) as (st & s' & tr & Hrun & Hinv).
  { split; [|split]; cbn [fst snd].
    - intros a. split; [apply lookup_empty | reflexivity].
    - intros a t H. rewrite lookup_empty in H. discriminate H.
    - intros a b t H. rewrite lookup_empty in H. discriminate H. }
  exists st, s', tr. split; [exact Hrun|].
  intros a. destruct Hinv as (H1 & _). specialize (H1 a).
  unfold timersOf. fold (intervalsOf a (running (snd st))).
  destruct (shownWith history a None) as [settings|].
  - destruct H1 as (t & _ & ->). reflexivity.
  - destruct H1 as (_ & ->). reflexivity.
Qed.
